(** * The benchmark harness of demo/benchmark_optimization.py

    A shallow embedding of [MetaPromptBenchmark] and [main]: Python
    strings are lists of code points, the outcome dictionaries are finite
    maps from keys to Python values, and everything the script asks of its
    environment (file system, clock, child process, console) is an event of
    a small free monad that a handler answers. *)

From Stdlib Require Import ZArith NArith QArith List Ascii String Lia Bool.
From Stdlib Require Import DecimalString.
From stdpp Require Import gmap strings list fin_maps.

Local Open Scope N_scope.

(** ** Python strings *)

(** A [str] is a sequence of Unicode code points. *)
Definition pystr := list N.

(** An ASCII literal of the source as a [pystr]. *)
Definition lit (s : string) : pystr :=
  List.map N_of_ascii (list_ascii_of_string s).
#[global] Arguments lit : simpl never.

Definition ch_dot : N := 46.
Definition ch_underscore : N := 95.
Definition ch_hyphen : N := 45.
Definition ch_newline : N := 10.

(** [str.isalnum] on the ASCII range: the digits and the letters. *)
Definition is_ascii_alnum (c : N) : bool :=
  ((48 <=? c) && (c <=? 57)) || ((65 <=? c) && (c <=? 90))
  || ((97 <=? c) && (c <=? 122)).

(** The character class [[A-Za-z0-9_.-]] of the specification. *)
Definition ascii_safe (c : N) : bool :=
  is_ascii_alnum c || (c =? ch_underscore) || (c =? ch_dot) || (c =? ch_hyphen).

(** [str.isalnum] on the Latin-1 Supplement block U+0080..U+00FF, from the
    Unicode character database: the ordinal indicators, micro sign,
    superscript digits, vulgar fractions and the accented letters. *)
Definition latin1_isalnum (c : N) : bool :=
  (c =? 170) || (c =? 178) || (c =? 179) || (c =? 181) || (c =? 185)
  || (c =? 186) || ((188 <=? c) && (c <=? 190))
  || ((192 <=? c) && (c <=? 214)) || ((216 <=? c) && (c <=? 246))
  || ((248 <=? c) && (c <=? 255)).

(** [str.lstrip(chars)] for a one-character [chars]. *)
Fixpoint lstrip (c : N) (s : pystr) : pystr :=
  match s with
  | [] => []
  | x :: s' => if x =? c then lstrip c s' else s
  end.

(** [str.isalnum] above the ASCII range is a table of the Unicode database
    the interpreter ships; the harness is embedded over any such table. *)
Class Unicode := { isalnum_high : N -> bool }.

Section Sanitizer.

Context `{Unicode}.

Definition isalnum (c : N) : bool :=
  if c <? 128 then is_ascii_alnum c else isalnum_high c.

(** [\w] of the [re] module on a [str] pattern: alphanumeric or underscore. *)
Definition re_word (c : N) : bool := isalnum c || (c =? ch_underscore).

(** Membership in the negated class [[^\w\-_.]]. *)
Definition re_unsafe (c : N) : bool :=
  negb (re_word c || (c =? ch_hyphen) || (c =? ch_underscore) || (c =? ch_dot)).

(** [re.sub(r'[^\w\-_.]', '_', filename)]. *)
Definition re_sub_unsafe (filename : pystr) : pystr :=
  List.map (fun c => if re_unsafe c then ch_underscore else c) filename.

Definition _sanitize_filename (filename : pystr) : pystr :=
  let safe_name := re_sub_unsafe filename in
  let safe_name := lstrip ch_dot safe_name in
  let safe_name := if decide (safe_name = []) then lit "unnamed" else safe_name in
  take 50 safe_name.

(** What the sanitizer lets through: the class of the specification and the
    alphanumerics above the ASCII range. *)
Definition kept (c : N) : bool :=
  ascii_safe c || ((128 <=? c) && isalnum_high c).

End Sanitizer.

(** The property the specification states for a sanitized name. *)
Definition spec_safe_name (r : pystr) : Prop :=
  forallb ascii_safe r = true /\ (length r <= 50)%nat
  /\ head r <> Some ch_dot /\ r <> [].

(** ** Numbers *)

(** Python's [float], taken through its operations: the harness only adds,
    subtracts, multiplies, divides and formats them, so it is embedded over
    any carrier that provides these. *)
Class PyFloat (F : Type) := {
  f_of_Z : Z -> F;
  f_add : F -> F -> F;
  f_sub : F -> F -> F;
  f_mul : F -> F -> F;
  f_div : F -> F -> F;
  f_is_zero : F -> bool;
  f_format : nat -> F -> pystr;
  f_repr : F -> pystr
}.

(** [str(n)] for an [int]. *)
Definition str_of_Z (z : Z) : pystr := lit (NilZero.string_of_int (Z.to_int z)).
#[global] Arguments str_of_Z : simpl never.

(** A decimal numeral padded with zeros on the left to [d] digits. *)
Definition zero_pad (d : nat) (s : pystr) : pystr :=
  List.repeat 48 (d - length s) ++ s.

(** Exact rationals as a carrier: every operation without rounding.
    [Q_format d x] is the fixed-point numeral of [x] with [d] decimals,
    rounded half to even as the format specification [.df] does; [repr]
    is shown as numerator, slash, denominator. *)
Definition Q_format (d : nat) (x : Q) : pystr :=
  let num := Z.abs (Qnum x) in
  let den := Zpos (Qden x) in
  let scale := (10 ^ Z.of_nat d)%Z in
  let q := (num * scale / den)%Z in
  let r := (num * scale mod den)%Z in
  let q := if ((den <? 2 * r) || ((den =? 2 * r) && Z.odd q))%Z then (q + 1)%Z else q in
  (if (Qnum x <? 0)%Z then lit "-" else [])
  ++ str_of_Z (q / scale)
  ++ match d with
     | O => []
     | _ => lit "." ++ zero_pad d (str_of_Z (q mod scale))
     end.

Definition Q_repr (x : Q) : pystr :=
  str_of_Z (Qnum (Qred x)) ++ lit "/" ++ str_of_Z (Zpos (Qden (Qred x))).

#[export] Instance Q_PyFloat : PyFloat Q := {|
  f_of_Z := inject_Z;
  f_add := Qplus;
  f_sub := Qminus;
  f_mul := Qmult;
  f_div := Qdiv;
  f_is_zero := fun x => (Qnum x =? 0)%Z;
  f_format := Q_format;
  f_repr := Q_repr
|}.

(** The Latin-1 table as the table above ASCII (false above U+00FF). *)
#[export] Instance Latin1 : Unicode := {| isalnum_high := latin1_isalnum |}.

(** The exceptions the script raises, catches or lets through. *)
Inductive exn : Type :=
| ValueError (msg : pystr)
| FileNotFoundError (msg : pystr)
| TimeoutExpired
| KeyError (key : string)
| TypeError
| ZeroDivisionError
| OSError (msg : pystr).

(** [str(e)] for the exceptions built from one message. *)
Definition exn_str (e : exn) : pystr :=
  match e with
  | ValueError msg | FileNotFoundError msg | OSError msg => msg
  | TimeoutExpired => lit "Command timed out"
  | KeyError key => lit "'" ++ lit key ++ lit "'"
  | TypeError => lit "unsupported operand type(s)"
  | ZeroDivisionError => lit "division by zero"
  end.

Inductive result (A : Type) : Type :=
| Ok (a : A)
| Err (e : exn).
Arguments Ok {A} a.
Arguments Err {A} e.

(** ** Paths *)

(** A [pathlib.Path]: the root (empty for a relative path) and the
    components below it. *)
Record Path := { root : pystr; parts : list pystr }.

#[export] Instance Path_eq_dec : EqDecision Path.
Proof. solve_decision. Defined.

(** [str.join]. *)
Fixpoint join (sep : pystr) (l : list pystr) : pystr :=
  match l with
  | [] => []
  | [x] => x
  | x :: l' => x ++ sep ++ join sep l'
  end.

(** [str(path)]. *)
Definition path_str (p : Path) : pystr :=
  match root p, parts p with
  | [], [] => lit "."
  | r, ps => r ++ join (lit "/") ps
  end.

(** [path / name] for a single component [name]. *)
Definition path_join (p : Path) (name : pystr) : Path :=
  {| root := root p; parts := parts p ++ [name] |}.

(** [path.parent]. *)
Definition path_parent (p : Path) : Path :=
  {| root := root p; parts := removelast (parts p) |}.

(** [path.name]. *)
Definition path_name (p : Path) : pystr := List.last (parts p) [].

(** [str.rfind] of one character: the index of its last occurrence. *)
Fixpoint rfind (c : N) (s : pystr) : option nat :=
  match s with
  | [] => None
  | x :: s' =>
      match rfind c s' with
      | Some i => Some (S i)
      | None => if x =? c then Some O else None
      end
  end.

(** [path.stem]: the name without its last suffix; a leading or trailing dot
    starts no suffix. *)
Definition path_stem (p : Path) : pystr :=
  let name := path_name p in
  match rfind ch_dot name with
  | Some i => if ((0 <? i) && (i <? length name - 1))%nat then take i name else name
  | None => name
  end.

(** [str.split] on one character. *)
Fixpoint split_on (c : N) (s : pystr) : list pystr :=
  match s with
  | [] => [[]]
  | x :: s' =>
      if x =? c then [] :: split_on c s'
      else match split_on c s' with
           | [] => [[x]]
           | w :: ws => (x :: w) :: ws
           end
  end.

(** [Path(text)] on a POSIX system: empty and [.] components vanish. *)
Definition path_of_str (text : pystr) : Path :=
  {| root := match text with
             | 47 :: 47 :: 47 :: _ => lit "/"
             | 47 :: 47 :: _ => lit "//"
             | 47 :: _ => lit "/"
             | _ => []
             end;
     parts := List.filter (fun w => negb (bool_decide (w = []) || bool_decide (w = lit ".")))
                (split_on 47 text) |}.

(** ** Values *)

(** A Python number: an [int] or a [float]. *)
Inductive pynum (F : Type) : Type :=
| PInt (z : Z)
| PFloat (x : F).
Arguments PInt {F} z.
Arguments PFloat {F} x.

(** The dictionary [get_file_stats] returns always has the same three keys. *)
Record FileStats := { fs_size : Z; fs_lines : Z; fs_chars : Z }.

(** The values an outcome dictionary holds. *)
Inductive pyval (F : Type) : Type :=
| VBool (b : bool)
| VNum (n : pynum F)
| VStr (s : pystr)
| VStats (st : FileStats).
Arguments VBool {F} b.
Arguments VNum {F} n.
Arguments VStr {F} s.
Arguments VStats {F} st.

(** What [subprocess.run] comes back with: a completed process, or an
    exception ([TimeoutExpired], or an error of the operating system). *)
Inductive proc_answer : Type :=
| Completed (returncode : Z) (stdout stderr : pystr)
| RunRaised (e : exn).

(** ** The environment *)

(** The calls the script makes on its environment, each with the type of
    its answer. Of these calls only [subprocess.run] is given answers that
    raise. A call on the file system or a [print] that raises is not among
    the runs described; the properties below that one could make false
    either speak of the outcomes that are returned or say that these
    calls are taken to answer. *)
Inductive event (F : Type) : Type -> Type :=
| PathExists (p : Path) : event F bool
| PathIsFile (p : Path) : event F bool
| ReadText (p : Path) : event F pystr
| StatSize (p : Path) : event F Z
| Mkdir (p : Path) : event F unit
| Glob (dir : Path) (pattern : pystr) : event F (list Path)
| WriteText (p : Path) (text : pystr) : event F unit
| TimeTime : event F F
| Strftime (format : pystr) : event F pystr
| SubprocessRun (cmd : list pystr) (timeout : Z) : event F proc_answer
| Print (line : pystr) : event F unit.
Arguments PathExists {F} p.
Arguments PathIsFile {F} p.
Arguments ReadText {F} p.
Arguments StatSize {F} p.
Arguments Mkdir {F} p.
Arguments Glob {F} dir pattern.
Arguments WriteText {F} p text.
Arguments TimeTime {F}.
Arguments Strftime {F} format.
Arguments SubprocessRun {F} cmd timeout.
Arguments Print {F} line.

(** A computation of the script: it returns, raises, or calls the
    environment and goes on with the answer. *)
Inductive prog (F A : Type) : Type :=
| Ret (a : A)
| Raise (e : exn)
| Vis {X : Type} (ev : event F X) (k : X -> prog F A).
Arguments Ret {F A} a.
Arguments Raise {F A} e.
Arguments Vis {F A X} ev k.

Fixpoint prog_bind {F A B} (k : A -> prog F B) (p : prog F A) : prog F B :=
  match p with
  | Ret a => k a
  | Raise e => Raise e
  | Vis ev k' => Vis ev (fun x => prog_bind k (k' x))
  end.

#[export] Instance prog_mret {F} : MRet (prog F) := fun A a => Ret a.
#[export] Instance prog_mbind {F} : MBind (prog F) := fun A B k p => prog_bind k p.

(** One call on the environment. *)
Definition call {F X} (ev : event F X) : prog F X := Vis ev Ret.

(** [try: p except ...: h e], where [h] answers [None] for the exceptions
    the clause does not catch. *)
Fixpoint try_except {F A} (p : prog F A) (h : exn -> option (prog F A)) : prog F A :=
  match p with
  | Ret a => Ret a
  | Raise e => match h e with Some q => q | None => Raise e end
  | Vis ev k => Vis ev (fun x => try_except (k x) h)
  end.

(** A [result] as a computation. *)
Definition lift {F A} (r : result A) : prog F A :=
  match r with Ok a => Ret a | Err e => Raise e end.

(** [for x in l: body x]. *)
Fixpoint for_each {F A} (l : list A) (body : A -> prog F unit) : prog F unit :=
  match l with
  | [] => Ret tt
  | x :: l' => prog_bind (fun _ => for_each l' body) (body x)
  end.

(** [[body x for x in l]], one after the other. *)
Fixpoint for_collect {F A B} (l : list A) (body : A -> prog F B) : prog F (list B) :=
  match l with
  | [] => Ret []
  | x :: l' =>
      prog_bind (fun y => prog_bind (fun ys => Ret (y :: ys)) (for_collect l' body)) (body x)
  end.

(** An environment: a state and an answer to every call. *)
Record handler (F S : Type) := { answer : forall X, event F X -> S -> X * S }.
Arguments answer {F S} h {X} ev s.

(** A call that was made, with its answer. *)
Inductive made (F : Type) : Type :=
| Made {X : Type} (ev : event F X) (x : X).
Arguments Made {F X} ev x.

(** Running a computation in an environment: how it ends, the final state
    and the calls made, in order. *)
Fixpoint run {F S A} (h : handler F S) (p : prog F A) (s : S)
  : result A * S * list (made F) :=
  match p with
  | Ret a => (Ok a, s, [])
  | Raise e => (Err e, s, [])
  | Vis ev k =>
      let '(x, s') := answer h ev s in
      let '(r, s'', t) := run h (k x) s' in
      (r, s'', Made ev x :: t)
  end.

Definition outcome_of {F S A} (h : handler F S) (p : prog F A) (s : S) : result A :=
  fst (fst (run h p s)).

Definition trace_of {F S A} (h : handler F S) (p : prog F A) (s : S) : list (made F) :=
  snd (run h p s).

Definition is_spawn {F} (m : made F) : bool :=
  match m with Made (SubprocessRun _ _) _ => true | _ => false end.

Definition is_write {F} (m : made F) : bool :=
  match m with Made (WriteText _ _) _ => true | _ => false end.

Definition printed {F} (m : made F) : option pystr :=
  match m with Made (Print line) _ => Some line | _ => None end.

(** What a call to [subprocess.run] was answered. *)
Definition spawn_answer {F} (m : made F) : option proc_answer :=
  match m with
  | Made ev x =>
      match ev in event _ X return X -> option proc_answer with
      | SubprocessRun _ _ => fun a => Some a
      | _ => fun _ => None
      end x
  end.

(** The argument vector and timeout of a call to [subprocess.run]. *)
Definition spawn_args {F} (m : made F) : option (list pystr * Z) :=
  match m with Made (SubprocessRun cmd timeout) _ => Some (cmd, timeout) | _ => None end.

(** What [p.exists()] was answered. *)
Definition exists_answer {F} (p : Path) (m : made F) : option bool :=
  match m with
  | Made ev x =>
      match ev in event _ X return X -> option bool with
      | PathExists q => fun b => if decide (q = p) then Some b else None
      | _ => fun _ => None
      end x
  end.

(** What [dir.glob(pattern)] was answered. *)
Definition glob_answer {F} (dir : Path) (pattern : pystr) (m : made F)
  : option (list Path) :=
  match m with
  | Made ev x =>
      match ev in event _ X return X -> option (list Path) with
      | Glob d pat =>
          fun l => if decide (d = dir /\ pat = pattern) then Some l else None
      | _ => fun _ => None
      end x
  end.

(** The calls made after the first child process came back. *)
Fixpoint after_spawn {F} (t : list (made F)) : list (made F) :=
  match t with
  | [] => []
  | m :: t' => if is_spawn m then t' else after_spawn t'
  end.

(** The error monad of the pure parts. *)
Definition result_bind {A B} (k : A -> result B) (r : result A) : result B :=
  match r with Ok a => k a | Err e => Err e end.

#[export] Instance result_mret : MRet result := fun A a => Ok a.
#[export] Instance result_mbind : MBind result := fun A B k r => result_bind k r.

(** ** Python operations the script uses *)

(** The line boundaries of [str.splitlines]. *)
Definition is_linebreak (c : N) : bool :=
  ((10 <=? c) && (c <=? 13)) || ((28 <=? c) && (c <=? 30))
  || (c =? 133) || (c =? 8232) || (c =? 8233).

(** [len(text.splitlines())]; [open_line] tells whether characters were
    read since the last boundary. *)
Fixpoint count_lines (open_line : bool) (text : pystr) : Z :=
  match text with
  | [] => if open_line then 1%Z else 0%Z
  | 13 :: ((10 :: text') as rest) => (1 + count_lines false text')%Z
  | c :: text' =>
      if is_linebreak c then (1 + count_lines false text')%Z
      else count_lines true text'
  end.

(** [str.isspace] of one character. *)
Definition is_space (c : N) : bool :=
  ((9 <=? c) && (c <=? 13)) || ((28 <=? c) && (c <=? 32))
  || (c =? 133) || (c =? 160) || (c =? 5760)
  || ((8192 <=? c) && (c <=? 8202)) || (c =? 8232) || (c =? 8233)
  || (c =? 8239) || (c =? 8287) || (c =? 12288).

(** The truth value of [line.strip()]: some character is not white space. *)
Definition strip_nonempty (line : pystr) : bool :=
  existsb (fun c => negb (is_space c)) line.

(** [str.startswith]. *)
Fixpoint startswith (s pre : pystr) : bool :=
  match pre, s with
  | [], _ => true
  | _ :: _, [] => false
  | p :: pre', c :: s' => (c =? p) && startswith s' pre'
  end.

Definition domain_char (c : N) : bool :=
  is_ascii_alnum c || (c =? ch_underscore) || (c =? ch_hyphen).

Fixpoint drop_domain_chars (s : pystr) : pystr :=
  match s with
  | [] => []
  | c :: s' => if domain_char c then drop_domain_chars s' else s
  end.

(** [re.match(r'^[a-zA-Z0-9_-]+$', domain)]: one or more characters of the
    class, then the end of the string, which [$] also finds before a final
    newline. *)
Definition domain_re_match (domain : pystr) : bool :=
  match domain with
  | [] => false
  | c :: _ =>
      domain_char c
      && match drop_domain_chars domain with
         | [] => true
         | [c'] => c' =? ch_newline
         | _ => false
         end
  end.

Definition valid_modes : list pystr :=
  [lit "LOCAL_ONLY"; lit "CACHED_LLM"; lit "FULL_LLM"; lit "ASYNC_LLM"].

Definition valid_goals : list pystr :=
  [lit "REDUCE_TOKENS"; lit "IMPROVE_ACCURACY"; lit "BALANCED"; lit "DOMAIN_SPECIFIC"].

(** The instance of [MetaPromptBenchmark]. *)
Record MetaPromptBenchmark := {
  demo_dir : Path;
  project_root : Path;
  build_dir : Path;
  cql_executable : Path
}.

Section Harness.

Context `{Unicode} {F : Type} `{PyFloat F}.

Definition to_float (n : pynum F) : F :=
  match n with PInt z => f_of_Z z | PFloat x => x end.

Definition py_add (a b : pynum F) : pynum F :=
  match a, b with
  | PInt x, PInt y => PInt (x + y)
  | _, _ => PFloat (f_add (to_float a) (to_float b))
  end.

Definition py_mul (a b : pynum F) : pynum F :=
  match a, b with
  | PInt x, PInt y => PInt (x * y)
  | _, _ => PFloat (f_mul (to_float a) (to_float b))
  end.

Definition num_is_zero (n : pynum F) : bool :=
  match n with PInt z => (z =? 0)%Z | PFloat x => f_is_zero x end.

(** [a / b]: true division, a [float] whatever the operands. *)
Definition py_truediv (a b : pynum F) : result (pynum F) :=
  if num_is_zero b then Err ZeroDivisionError
  else Ok (PFloat (f_div (to_float a) (to_float b))).

(** [sum(l)]: from the [int] zero, left to right. *)
Definition py_sum (l : list (pynum F)) : pynum F := fold_left py_add l (PInt 0).

(** A value as an operand of arithmetic: [bool] is a subclass of [int]. *)
Definition as_num (v : pyval F) : result (pynum F) :=
  match v with
  | VBool b => Ok (PInt (if b then 1 else 0))
  | VNum n => Ok n
  | VStr _ | VStats _ => Err TypeError
  end.

(** The truth value of a value. *)
Definition truthy (v : pyval F) : bool :=
  match v with
  | VBool b => b
  | VNum n => negb (num_is_zero n)
  | VStr s => negb (bool_decide (s = []))
  | VStats _ => true
  end.

(** [str(v)], as an f-string shows a value. *)
Definition py_str (v : pyval F) : pystr :=
  match v with
  | VBool b => if b then lit "True" else lit "False"
  | VNum (PInt z) => str_of_Z z
  | VNum (PFloat x) => f_repr x
  | VStr s => s
  | VStats st =>
      lit "{'size': " ++ str_of_Z (fs_size st) ++ lit ", 'lines': "
      ++ str_of_Z (fs_lines st) ++ lit ", 'chars': " ++ str_of_Z (fs_chars st) ++ lit "}"
  end.

(** [f"{v:.df}"]. *)
Definition format_f (d : nat) (v : pyval F) : result pystr :=
  match v with
  | VBool _ | VNum _ => n ← as_num v; Ok (f_format d (to_float n))
  | VStr _ => Err (ValueError (lit "Unknown format code 'f' for object of type 'str'"))
  | VStats _ => Err TypeError
  end.

(** [d[key]]. *)
Definition getitem (d : gmap string (pyval F)) (key : string) : result (pyval F) :=
  match d !! key with Some v => Ok v | None => Err (KeyError key) end.

(** [v["chars"]] for a value [v]. *)
Definition chars_of (v : pyval F) : result Z :=
  match v with VStats st => Ok (fs_chars st) | _ => Err TypeError end.

(** ** The methods of [MetaPromptBenchmark] *)

Definition get_file_stats (filepath : Path) : prog F FileStats :=
  ex ← call (PathExists filepath);
  if negb ex then Ret {| fs_size := 0; fs_lines := 0; fs_chars := 0 |}
  else
    content ← call (ReadText filepath);
    st_size ← call (StatSize filepath);
    Ret {| fs_size := st_size;
           fs_lines := count_lines false content;
           fs_chars := Z.of_nat (length content) |}.

Definition _validate_parameters (input_file : Path) (mode goal domain : pystr)
  : prog F unit :=
  ex ← call (PathExists input_file);
  if negb ex
  then Raise (ValueError (lit "Input file does not exist: " ++ path_str input_file))
  else
    isf ← call (PathIsFile input_file);
    if negb isf
    then Raise (ValueError (lit "Input path is not a file: " ++ path_str input_file))
    else if negb (bool_decide (mode ∈ valid_modes))
    then Raise (ValueError (lit "Invalid mode '" ++ mode ++ lit "'. Must be one of: "
                            ++ join (lit ", ") valid_modes))
    else if negb (bool_decide (goal ∈ valid_goals))
    then Raise (ValueError (lit "Invalid goal '" ++ goal ++ lit "'. Must be one of: "
                            ++ join (lit ", ") valid_goals))
    else if negb (domain_re_match domain)
    then Raise (ValueError (lit "Invalid domain '" ++ domain
                            ++ lit "'. Only alphanumeric characters, underscore, and hyphen allowed"))
    else if (64 <? length domain)%nat
    then Raise (ValueError (lit "Domain name too long: "
                            ++ str_of_Z (Z.of_nat (length domain))
                            ++ lit " characters (max 64)"))
    else Ret tt.

(** The dictionary of a run that was not carried out, or timed out. *)
Definition failure_outcome (error : pystr) (execution_time : F)
    (mode goal domain : pystr) : gmap string (pyval F) :=
  <["success" := VBool false]>
  (<["error" := VStr error]>
  (<["execution_time" := VNum (PFloat execution_time)]>
  (<["mode" := VStr mode]>
  (<["goal" := VStr goal]>
  (<["domain" := VStr domain]> ∅))))).

(** The path the optimized text of [input_file] is written to. *)
Definition output_file_of (self : MetaPromptBenchmark) (input_file : Path) : Path :=
  let safe_filename := _sanitize_filename (path_stem input_file) in
  path_join (path_join (demo_dir self) (lit "temp"))
            (lit "optimized_" ++ safe_filename ++ lit ".txt").

(** The argument vector of the compiler. *)
Definition command_of (self : MetaPromptBenchmark) (input_file output_file : Path)
    (mode goal domain : pystr) : list pystr :=
  [ path_str (cql_executable self); lit "--optimize";
    path_str input_file; path_str output_file;
    lit "--mode"; mode; lit "--goal"; goal; lit "--domain"; domain;
    lit "--show-metrics"; lit "--show-validation" ].

Definition run_optimization (self : MetaPromptBenchmark) (input_file : Path)
    (mode goal domain : pystr) : prog F (gmap string (pyval F)) :=
  rejected ← try_except
    (_validate_parameters input_file mode goal domain ≫= fun _ => Ret None)
    (fun e => match e with
              | ValueError msg =>
                  Some (Ret (Some (failure_outcome (exn_str e) (f_of_Z 0) mode goal domain)))
              | _ => None
              end);
  match rejected with
  | Some outcome => Ret outcome
  | None =>
      let output_file := output_file_of self input_file in
      _ ← call (Mkdir (path_parent output_file));
      let cmd := command_of self input_file output_file mode goal domain in
      start_time ← call TimeTime;
      try_except
        (ans ← call (SubprocessRun cmd 30);
         match ans with
         | RunRaised e => Raise e
         | Completed returncode stdout stderr =>
             end_time ← call TimeTime;
             let execution_time := f_sub end_time start_time in
             let metrics : gmap string (pyval F) :=
               <["success" := VBool (returncode =? 0)%Z]>
               (<["execution_time" := VNum (PFloat execution_time)]>
               (<["stdout" := VStr stdout]>
               (<["stderr" := VStr stderr]>
               (<["mode" := VStr mode]>
               (<["goal" := VStr goal]>
               (<["domain" := VStr domain]> ∅)))))) in
             if (returncode =? 0)%Z
             then
               (ex ← call (PathExists output_file);
                if ex : bool
                then
                  stats ← get_file_stats output_file;
                  Ret (<["output_stats" := VStats stats]> metrics)
                else Ret metrics) : prog F (gmap string (pyval F))
             else Ret metrics
         end)
        (fun e => match e with
                  | TimeoutExpired =>
                      Some (Ret (failure_outcome (lit "Timeout") (f_of_Z 30) mode goal domain))
                  | _ => None
                  end)
  end.

(** The dictionary [benchmark_file] returns always has the same three keys. *)
Record file_result := {
  file : pystr;
  original_stats : FileStats;
  optimizations : list (gmap string (pyval F))
}.

Definition configurations : list (pystr * pystr * pystr) :=
  [ (lit "LOCAL_ONLY", lit "BALANCED", lit "software");
    (lit "LOCAL_ONLY", lit "REDUCE_TOKENS", lit "software");
    (lit "LOCAL_ONLY", lit "IMPROVE_ACCURACY", lit "software");
    (lit "LOCAL_ONLY", lit "DOMAIN_SPECIFIC", lit "software") ].

Definition benchmark_file (self : MetaPromptBenchmark) (input_file : Path)
  : prog F file_result :=
  _ ← call (Print ([128202] ++ lit " Benchmarking: " ++ path_name input_file));
  original_stats ← get_file_stats input_file;
  optimizations ← for_collect configurations (fun cfg =>
    let '(mode, goal, domain) := cfg in
    _ ← call (Print (lit "  " ++ [128260] ++ lit " Testing " ++ mode ++ lit " + "
                     ++ goal ++ lit " + " ++ domain));
    run_optimization self input_file mode goal domain);
  Ret {| file := path_str input_file;
         original_stats := original_stats;
         optimizations := optimizations |}.

(** [for x in l: acc = step acc x], where [step] may raise. *)
Fixpoint fold_result {A B} (step : B -> A -> result B) (l : list A) (acc : B)
  : result B :=
  match l with
  | [] => Ok acc
  | x :: l' => acc' ← step acc x; fold_result step l' acc'
  end.

(** [((original_size - optimized_size) / original_size) * 100]. *)
Definition reduction_percent (original_size optimized_size : Z) : result (pynum F) :=
  q ← py_truediv (PInt (original_size - optimized_size)) (PInt original_size);
  Ok (py_mul q (PInt 100)).

(** The size reduction of a row of the detailed results. *)
Definition row_reduction (original_size optimized_size : Z) : result (pynum F) :=
  if (0 <? original_size)%Z
  then reduction_percent original_size optimized_size
  else Ok (PInt 0).

(** The three accumulators of the first loop of [generate_report]. *)
Record tally := {
  successful_optimizations : Z;
  total_execution_time : pynum F;
  size_reductions : list (pynum F)
}.

(** The body of the inner loop, for an outcome [opt] of a file with
    [stats]. *)
Definition tally_outcome (stats : FileStats) (acc : tally)
    (opt : gmap string (pyval F)) : result tally :=
  success ← getitem opt "success";
  if truthy success
  then
    t ← getitem opt "execution_time" ≫= as_num;
    let acc := {| successful_optimizations := successful_optimizations acc + 1;
                  total_execution_time := py_add (total_execution_time acc) t;
                  size_reductions := size_reductions acc |} in
    if bool_decide (is_Some (opt !! "output_stats"))
    then
      let original_size := fs_chars stats in
      optimized_size ← getitem opt "output_stats" ≫= chars_of;
      if (0 <? original_size)%Z
      then
        reduction ← reduction_percent original_size optimized_size;
        Ok {| successful_optimizations := successful_optimizations acc;
              total_execution_time := total_execution_time acc;
              size_reductions := size_reductions acc ++ [reduction] |}
      else Ok acc
    else Ok acc
  else Ok acc.

Definition tally_results (benchmark_results : list file_result) : result tally :=
  fold_result
    (fun acc res => fold_result (tally_outcome (original_stats res)) (optimizations res) acc)
    benchmark_results
    {| successful_optimizations := 0;
       total_execution_time := PFloat (f_of_Z 0);
       size_reductions := [] |}.

(** The figures of the executive summary. *)
Record summary := {
  total_files : Z;
  successes : Z;
  avg_execution_time : pynum F;
  avg_size_reduction : pynum F;
  success_rate : pynum F
}.

Definition summarize (benchmark_results : list file_result) : result summary :=
  let total_files := Z.of_nat (length benchmark_results) in
  acc ← tally_results benchmark_results;
  avg_execution_time ←
    py_truediv (total_execution_time acc) (PInt (Z.max (successful_optimizations acc) 1));
  avg_size_reduction ←
    py_truediv (py_sum (size_reductions acc))
               (PInt (Z.max (Z.of_nat (length (size_reductions acc))) 1));
  rate ← py_truediv (PInt (successful_optimizations acc))
                    (PInt (Z.max (total_files * 4) 1));
  Ok {| total_files := total_files;
        successes := successful_optimizations acc;
        avg_execution_time := avg_execution_time;
        avg_size_reduction := avg_size_reduction;
        success_rate := py_mul rate (PInt 100) |}.

(** The lines of the executive summary. *)
Definition summary_lines (s : summary) : list pystr :=
  [ lit "- **Files processed**: " ++ str_of_Z (total_files s);
    lit "- **Successful optimizations**: " ++ str_of_Z (successes s);
    lit "- **Average execution time**: "
      ++ f_format 3 (to_float (avg_execution_time s)) ++ lit "s";
    lit "- **Average size reduction**: "
      ++ f_format 1 (to_float (avg_size_reduction s)) ++ lit "%";
    lit "- **Success rate**: " ++ f_format 1 (to_float (success_rate s))
      ++ lit "%" ++ [ch_newline] ].

(** One row of the table of a file with [stats]. *)
Definition detail_row (stats : FileStats) (opt : gmap string (pyval F))
  : result pystr :=
  mode ← getitem opt "mode";
  goal ← getitem opt "goal";
  domain ← getitem opt "domain";
  ok ← getitem opt "success";
  let success := if truthy ok then [9989] else [10060] in
  exec_time ← getitem opt "execution_time" ≫= format_f 3;
  ok' ← getitem opt "success";
  cells ←
    (if truthy ok' && bool_decide (is_Some (opt !! "output_stats"))
     then
       let original_size := fs_chars stats in
       optimized_size ← getitem opt "output_stats" ≫= chars_of;
       reduction ← row_reduction original_size optimized_size;
       Ok (f_format 1 (to_float reduction) ++ lit "%", lit "SUCCESS")
     else
       Ok (lit "N/A", py_str (default (VStr (lit "FAILED")) (opt !! "error"))));
  let '(size_reduction, status) := cells in
  Ok (lit "| " ++ py_str mode ++ lit " | " ++ py_str goal ++ lit " | "
      ++ py_str domain ++ lit " | " ++ success ++ lit " | " ++ exec_time
      ++ lit " | " ++ size_reduction ++ lit " | " ++ status ++ lit " |").

(** [[f x for x in l]], where [f] may raise. *)
Fixpoint map_result {A B} (f : A -> result B) (l : list A) : result (list B) :=
  match l with
  | [] => Ok []
  | x :: l' => y ← f x; ys ← map_result f l'; Ok (y :: ys)
  end.

(** The lines of the section of one file. *)
Definition detail_lines (res : file_result) : result (list pystr) :=
  let file_name := path_name (path_of_str (file res)) in
  let stats := original_stats res in
  rows ← map_result (detail_row stats) (optimizations res);
  Ok ([ lit "### " ++ file_name ++ [ch_newline];
        lit "**Original**: " ++ str_of_Z (fs_chars stats) ++ lit " chars, "
          ++ str_of_Z (fs_lines stats) ++ lit " lines" ++ [ch_newline];
        lit "| Mode | Goal | Domain | Success | Time (s) | Size Reduction | Status |";
        lit "|------|------|---------|---------|----------|----------------|--------|" ]
      ++ rows ++ [ [] ]).

Definition generate_report (benchmark_results : list file_result) : prog F pystr :=
  now ← call (Strftime (lit "%Y-%m-%d %H:%M:%S"));
  s ← lift (summarize benchmark_results);
  details ← lift (map_result detail_lines benchmark_results);
  Ret (join [ch_newline]
         ([ lit "# Meta-Prompt Compiler Benchmark Report" ++ [ch_newline];
            lit "Generated: " ++ now ++ [ch_newline];
            lit "## Executive Summary" ++ [ch_newline] ]
          ++ summary_lines s
          ++ [ lit "## Detailed Results" ++ [ch_newline] ]
          ++ concat details)).

Definition run_full_benchmark (self : MetaPromptBenchmark) : prog F pystr :=
  _ ← call (Print ([128640] ++ lit " Starting Meta-Prompt Compiler Benchmark"));
  _ ← call (Print (List.repeat 61 50));
  let examples_dir := path_join (demo_dir self) (lit "examples") in
  ex ← call (PathExists examples_dir);
  if negb ex
  then Raise (FileNotFoundError (lit "Examples directory not found: " ++ path_str examples_dir))
  else
    example_files ← call (Glob examples_dir (lit "*.llm"));
    if bool_decide (example_files = [])
    then Raise (FileNotFoundError (lit "No .llm files found in " ++ path_str examples_dir))
    else
      _ ← call (Print (lit "Found " ++ str_of_Z (Z.of_nat (length example_files))
                       ++ lit " example files"));
      results ← for_collect example_files (benchmark_file self);
      report ← generate_report results;
      let report_file := path_join (demo_dir self) (lit "benchmark_report.md") in
      _ ← call (WriteText report_file report);
      _ ← call (Print ([ch_newline; 128202] ++ lit " Benchmark complete! Report saved to: "
                       ++ path_str report_file));
      Ret report.

(** [MetaPromptBenchmark(build_dir)], for a script at [script_file]. A
    [build_dir] that is a non-empty [str] has no [/]. *)
Definition __init__ (script_file : Path) (build_dir : option pystr)
  : prog F MetaPromptBenchmark :=
  let demo_dir := path_parent script_file in
  let project_root := path_parent demo_dir in
  match build_dir with
  | Some (_ :: _) => Raise TypeError
  | _ =>
      let build_dir := path_join project_root (lit "build") in
      let cql_executable := path_join build_dir (lit "cql") in
      ex ← call (PathExists cql_executable);
      if negb ex
      then Raise (FileNotFoundError (lit "CQL executable not found at "
                                     ++ path_str cql_executable))
      else Ret {| demo_dir := demo_dir; project_root := project_root;
                  build_dir := build_dir; cql_executable := cql_executable |}
  end.

(** The loop of [main] over the lines of the report. *)
Fixpoint print_summary (in_summary : bool) (lines : list pystr) : prog F unit :=
  match lines with
  | [] => Ret tt
  | line :: lines' =>
      if startswith line (lit "## Executive Summary") then print_summary true lines'
      else if startswith line (lit "##") && in_summary then Ret tt
      else if in_summary && strip_nonempty line
      then _ ← call (Print line); print_summary in_summary lines'
      else print_summary in_summary lines'
  end.

(** [main()] of the script at [script_file]; the process exits with what
    it returns. *)
Definition main (script_file : Path) : prog F Z :=
  try_except
    (benchmark ← __init__ script_file None;
     report ← run_full_benchmark benchmark;
     _ ← call (Print ([ch_newline] ++ List.repeat 61 50));
     _ ← call (Print ([128200] ++ lit " BENCHMARK SUMMARY"));
     _ ← call (Print (List.repeat 61 50));
     _ ← print_summary false (split_on ch_newline report);
     Ret 0%Z)
    (fun e => Some (_ ← call (Print ([10060] ++ lit " Benchmark failed: " ++ exn_str e));
                    Ret 1%Z)).

(** ** Notions the properties are stated with *)

(** The keys of an outcome of a run that was rejected or timed out, and of
    a run that completed. *)
Definition failure_keys : gset string :=
  {[ "success"; "error"; "execution_time"; "mode"; "goal"; "domain" ]}.

Definition completed_keys : gset string :=
  {[ "success"; "execution_time"; "stdout"; "stderr"; "mode"; "goal"; "domain" ]}.

(** The three shapes of the dictionaries [run_optimization] builds. *)
Definition outcome_shape (d : gmap string (pyval F)) : Prop :=
  dom d = failure_keys
  \/ dom d = completed_keys
  \/ dom d = completed_keys ∪ {[ "output_stats" ]}.

(** The outcome records of the specification: all of its fields but the
    two optional ones are there. *)
Definition declared_shape (d : gmap string (pyval F)) : Prop :=
  {[ "success"; "execution_time"; "stdout"; "stderr" ]} ⊆ dom d.

(** An outcome whose values have the types [run_optimization] gives them,
    as far as the summary reads them. *)
Definition outcome_wf (opt : gmap string (pyval F)) : bool :=
  match opt !! "success" with
  | Some (VBool true) =>
      match opt !! "execution_time" with
      | Some (VNum _) =>
          match opt !! "output_stats" with
          | None | Some (VStats _) => true
          | Some _ => false
          end
      | _ => false
      end
  | Some (VBool false) => true
  | _ => false
  end.

Definition succeeded (opt : gmap string (pyval F)) : bool :=
  match opt !! "success" with Some v => truthy v | None => false end.

Definition time_of (opt : gmap string (pyval F)) : pynum F :=
  match opt !! "execution_time" with Some (VNum n) => n | _ => PInt 0 end.

Definition output_chars (opt : gmap string (pyval F)) : option Z :=
  match opt !! "output_stats" with Some (VStats st) => Some (fs_chars st) | _ => None end.

(** Every outcome with the statistics of its file, in report order. *)
Definition outcomes_of (benchmark_results : list file_result)
  : list (FileStats * gmap string (pyval F)) :=
  flat_map (fun res => List.map (pair (original_stats res)) (optimizations res))
           benchmark_results.

(** The outcomes that succeeded, and the sum of their execution times as
    the loop of the summary adds them up, from [0.0]. *)
Definition successful_outcomes (benchmark_results : list file_result)
  : list (FileStats * gmap string (pyval F)) :=
  List.filter (fun p => succeeded (snd p)) (outcomes_of benchmark_results).

Definition total_time (benchmark_results : list file_result) : pynum F :=
  fold_left py_add
    (List.map (fun p => time_of (snd p)) (successful_outcomes benchmark_results))
    (PFloat (f_of_Z 0)).

(** [(o - n) / o * 100] as a [float], for [o] other than zero. *)
Definition percent (o n : Z) : pynum F :=
  PFloat (f_mul (f_div (f_of_Z (o - n)) (f_of_Z o)) (f_of_Z 100)).

(** The size reduction an outcome adds to the mean of the summary, if any:
    it succeeded, has output statistics, and its file is not empty. *)
Definition counted_reduction (p : FileStats * gmap string (pyval F))
  : option (pynum F) :=
  let '(stats, opt) := p in
  if succeeded opt
  then match output_chars opt with
       | Some n => if (0 <? fs_chars stats)%Z then Some (percent (fs_chars stats) n) else None
       | None => None
       end
  else None.

(** [sum(l) / max(len(l), 1)]. *)
Definition guarded_mean (l : list (pynum F)) : pynum F :=
  PFloat (f_div (to_float (py_sum l)) (f_of_Z (Z.max (Z.of_nat (length l)) 1))).

(** What an outcome adds to the three accumulators. *)
Definition tally_add (stats : FileStats) (acc : tally) (opt : gmap string (pyval F))
  : tally :=
  {| successful_optimizations :=
       successful_optimizations acc + (if succeeded opt then 1 else 0);
     total_execution_time :=
       if succeeded opt then py_add (total_execution_time acc) (time_of opt)
       else total_execution_time acc;
     size_reductions :=
       size_reductions acc ++ option_list (counted_reduction (stats, opt)) |}.

(** The accumulators after the two loops, from any start. *)
Definition tally_from (acc : tally) (ps : list (FileStats * gmap string (pyval F)))
  : tally :=
  fold_left (fun acc p => tally_add (fst p) acc (snd p)) ps acc.

(** Following the specification: the size reduction of every outcome that
    produced output statistics, [0] for an empty original. *)
Definition spec_reduction (p : FileStats * gmap string (pyval F))
  : option (pynum F) :=
  let '(stats, opt) := p in
  match output_chars opt with
  | Some n => Some (if (0 <? fs_chars stats)%Z then percent (fs_chars stats) n else PInt 0)
  | None => None
  end.

(** Following the specification: the mean size reduction over all outcomes
    that produced output statistics. *)
Definition spec_avg_size_reduction (benchmark_results : list file_result) : pynum F :=
  guarded_mean (omap spec_reduction (outcomes_of benchmark_results)).

End Harness.

(** ** Notions for the properties of the whole run *)

(** [str.isascii] of one character. *)
Definition is_ascii (c : N) : bool := c <? 128.

(** Whether a call is [p.exists()] or [p.is_file()]. *)
Definition is_query {F} (p : Path) (m : made F) : bool :=
  match m with
  | Made (PathExists q) _ | Made (PathIsFile q) _ => bool_decide (q = p)
  | _ => false
  end.

(** The directory of a call to [mkdir]. *)
Definition mkdir_arg {F} (m : made F) : option Path :=
  match m with Made (Mkdir p) _ => Some p | _ => None end.

(** What [time.time()] was answered. *)
Definition clock_reading {F} (m : made F) : option F :=
  match m with
  | Made ev x =>
      match ev in event _ X return X -> option F with
      | TimeTime => fun t => Some t
      | _ => fun _ => None
      end x
  end.

(** The path and the text of a call to [write_text]. *)
Definition write_arg {F} (m : made F) : option (Path * pystr) :=
  match m with Made (WriteText p text) _ => Some (p, text) | _ => None end.

(** An outcome with the keys and the types of values the report reads. *)
Definition reportable {F} (opt : gmap string (pyval F)) : bool :=
  match opt !! "success", opt !! "execution_time",
        opt !! "mode", opt !! "goal", opt !! "domain" with
  | Some (VBool _), Some (VNum _), Some (VStr _), Some (VStr _), Some (VStr _) =>
      match opt !! "output_stats" with
      | None | Some (VStats _) => true
      | Some _ => false
      end
  | _, _, _, _, _ => false
  end.

(** An outcome of the configuration [cfg] that the report can render. *)
Definition outcome_for {F} (cfg : pystr * pystr * pystr) (d : gmap string (pyval F))
  : Prop :=
  reportable d = true
  /\ d !! "mode" = Some (VStr (fst (fst cfg)))
  /\ d !! "goal" = Some (VStr (snd (fst cfg)))
  /\ d !! "domain" = Some (VStr (snd cfg)).

(** What [benchmark_file] returns on [input_file]: one outcome for each
    configuration, in their order. *)
Definition benchmarked {F} (input_file : Path) (res : @file_result F) : Prop :=
  file res = path_str input_file
  /\ Forall2 outcome_for configurations (optimizations res).

(** The dictionary that [run_optimization] creates when the process has
    completed (lines 117 to 125), before [output_stats] is stored in it. *)
Definition completed_metrics {F} (returncode : Z) (execution_time : F)
    (stdout stderr mode goal domain : pystr) : gmap string (pyval F) :=
  <["success" := VBool (returncode =? 0)%Z]>
  (<["execution_time" := VNum (PFloat execution_time)]>
  (<["stdout" := VStr stdout]>
  (<["stderr" := VStr stderr]>
  (<["mode" := VStr mode]>
  (<["goal" := VStr goal]>
  (<["domain" := VStr domain]> ∅)))))).

(** The records [ds] are those that [run_optimization] returned for the
    configurations [cfgs] of [input_file], called one after the other from
    the state [s], each after the line that announces it is printed. *)
Fixpoint returned_in_turn `{Unicode} {F S : Type} `{PyFloat F} (h : handler F S)
    (self : MetaPromptBenchmark) (input_file : Path) (s : S)
    (cfgs : list (pystr * pystr * pystr)) (ds : list (gmap string (pyval F))) : Prop :=
  match cfgs, ds with
  | [], [] => True
  | (mode, goal, domain) :: cfgs', d :: ds' =>
      let s1 := snd (answer h (Print (lit "  " ++ [128260] ++ lit " Testing " ++ mode
                                      ++ lit " + " ++ goal ++ lit " + " ++ domain)) s) in
      exists s2 t,
        run h (run_optimization self input_file mode goal domain) s1 = (Ok d, s2, t)
        /\ returned_in_turn h self input_file s2 cfgs' ds'
  | _, _ => False
  end.

(** What the first two statements of the [try] of [main] come to: the
    report of the full benchmark of a new [MetaPromptBenchmark], or the
    exception that one of the two raised. *)
Definition benchmark_result `{Unicode} {F S : Type} `{PyFloat F} (h : handler F S)
    (script_file : Path) (s : S) : result pystr :=
  outcome_of h (benchmark ← __init__ script_file None; run_full_benchmark benchmark) s.

(** A run that wrote no file and that, if it raised, raised what
    [subprocess.run] had raised; [Q] holds of what it returned. *)
Definition good_run {F S A} (Q : A -> Prop) (x : result A * S * list (made F)) : Prop :=
  existsb is_write (snd x) = false
  /\ match fst (fst x) with
     | Ok a => Q a
     | Err e => In (RunRaised e) (omap spawn_answer (snd x))
     end.

(** A run of [run_full_benchmark] that wrote the report to [report_file]
    and nothing else, or that raised and wrote nothing; what it raises is
    a [FileNotFoundError] or what [subprocess.run] raised. *)
Definition report_written_once {F S} (report_file : Path)
    (x : result pystr * S * list (made F)) : Prop :=
  match fst (fst x) with
  | Ok report => omap write_arg (snd x) = [(report_file, report)]
  | Err e =>
      omap write_arg (snd x) = []
      /\ ((exists msg, e = FileNotFoundError msg)
          \/ In (RunRaised e) (omap spawn_answer (snd x)))
  end.

(** ** A simulated environment *)

(** Files with their text, directories, and a clock that ticks at every
    reading; times are exact rationals. *)
Record world := {
  w_files : list (Path * pystr);
  w_dirs : list Path;
  w_clock : Z
}.

Fixpoint lookup_file (p : Path) (fs : list (Path * pystr)) : option pystr :=
  match fs with
  | [] => None
  | (q, text) :: fs' => if decide (q = p) then Some text else lookup_file p fs'
  end.

Definition write_file (p : Path) (text : pystr) (w : world) : world :=
  {| w_files := (p, text) :: w_files w; w_dirs := w_dirs w; w_clock := w_clock w |}.

(** [str.endswith]. *)
Definition endswith (s suffix : pystr) : bool := startswith (rev s) (rev suffix).

(** The files of [dir] a pattern [*suffix] matches. *)
Definition glob_files (dir : Path) (pattern : pystr) (w : world) : list Path :=
  List.filter (fun p => bool_decide (path_parent p = dir)
                        && endswith (path_name p) (drop 1 pattern))
              (List.map fst (w_files w)).

(** The environment in which the child process behaves as [compiler]. *)
Definition sim_answer (compiler : list pystr -> world -> proc_answer * world)
    (X : Type) (ev : event Q X) (w : world) : X * world :=
  match ev in event _ X return X * world with
  | PathExists p =>
      (bool_decide (is_Some (lookup_file p (w_files w))) || bool_decide (p ∈ w_dirs w), w)
  | PathIsFile p => (bool_decide (is_Some (lookup_file p (w_files w))), w)
  | ReadText p => (default [] (lookup_file p (w_files w)), w)
  | StatSize p => (Z.of_nat (length (default [] (lookup_file p (w_files w)))), w)
  | Mkdir p =>
      (tt, {| w_files := w_files w; w_dirs := p :: w_dirs w; w_clock := w_clock w |})
  | Glob dir pattern => (glob_files dir pattern w, w)
  | WriteText p text => (tt, write_file p text w)
  | TimeTime =>
      (inject_Z (w_clock w),
       {| w_files := w_files w; w_dirs := w_dirs w; w_clock := w_clock w + 1 |})
  | Strftime _ => (lit "2024-01-01 00:00:00", w)
  | SubprocessRun cmd _ => compiler cmd w
  | Print _ => (tt, w)
  end.

Definition sim (compiler : list pystr -> world -> proc_answer * world)
  : handler Q world := {| answer := sim_answer compiler |}.

(** A compiler that never comes back in time. *)
Definition compiler_hangs (cmd : list pystr) (w : world) : proc_answer * world :=
  (RunRaised TimeoutExpired, w).

(** A compiler that exits with status 1. *)
Definition compiler_fails (cmd : list pystr) (w : world) : proc_answer * world :=
  (Completed 1 [] (lit "error"), w).

(** A compiler that writes the first half of its input and exits with
    status 0. *)
Definition compiler_halves (cmd : list pystr) (w : world) : proc_answer * world :=
  match cmd with
  | _ :: _ :: input :: output :: _ =>
      let text := default [] (lookup_file (path_of_str input) (w_files w)) in
      (Completed 0 (lit "done") [],
       write_file (path_of_str output) (take (length text / 2) text) w)
  | _ => (Completed 2 [] (lit "usage"), w)
  end.

Definition abs_path (names : list string) : Path :=
  {| root := lit "/"; parts := List.map lit names |}.

Definition script_file : Path := abs_path ["repo"; "demo"; "benchmark_optimization.py"].

(** The instance [main] builds for that script. *)
Definition the_benchmark : MetaPromptBenchmark :=
  {| demo_dir := abs_path ["repo"; "demo"];
     project_root := abs_path ["repo"];
     build_dir := abs_path ["repo"; "build"];
     cql_executable := abs_path ["repo"; "build"; "cql"] |}.

Definition empty_llm : Path := abs_path ["repo"; "demo"; "examples"; "empty.llm"].
Definition abcd_llm : Path := abs_path ["repo"; "demo"; "examples"; "abcd.llm"].
(** The result of a file of four characters with a run that produced two
    characters and a run that timed out. *)
Definition sample_results : list (@file_result Q) :=
  [ {| file := lit "/repo/demo/examples/abcd.llm";
       original_stats := {| fs_size := 4; fs_lines := 1; fs_chars := 4 |};
       optimizations :=
         [ <["output_stats" := VStats {| fs_size := 2; fs_lines := 1; fs_chars := 2 |}]>
             (<["success" := VBool true]>
             (<["execution_time" := VNum (PFloat (inject_Z 1))]>
             (<["stdout" := VStr (lit "done")]>
             (<["stderr" := VStr []]>
             (<["mode" := VStr (lit "LOCAL_ONLY")]>
             (<["goal" := VStr (lit "BALANCED")]>
             (<["domain" := VStr (lit "software")]> ∅)))))));
           failure_outcome (lit "Timeout") (inject_Z 30) (lit "LOCAL_ONLY")
             (lit "REDUCE_TOKENS") (lit "software") ] |} ].

Definition missing_llm : Path := abs_path ["repo"; "demo"; "examples"; "missing.llm"].

(** The first configuration of [benchmark_file], on a given file and
    compiler, in the checkout with two examples. *)
Definition balanced_run (input_file : Path) : prog Q (gmap string (pyval Q)) :=
  run_optimization the_benchmark input_file (lit "LOCAL_ONLY") (lit "BALANCED")
                   (lit "software").

(** A checkout with the compiler built and two examples, one of them
    empty. *)
Definition world_two_examples : world :=
  {| w_files := [ (abs_path ["repo"; "build"; "cql"], lit "ELF");
                  (empty_llm, []);
                  (abcd_llm, lit "abcd") ];
     w_dirs := [ abs_path ["repo"]; abs_path ["repo"; "build"];
                 abs_path ["repo"; "demo"]; abs_path ["repo"; "demo"; "examples"] ];
     w_clock := 100 |}.

(** The same checkout with an empty examples directory. *)
Definition world_no_examples : world :=
  {| w_files := [ (abs_path ["repo"; "build"; "cql"], lit "ELF") ];
     w_dirs := [ abs_path ["repo"]; abs_path ["repo"; "build"];
                 abs_path ["repo"; "demo"]; abs_path ["repo"; "demo"; "examples"] ];
     w_clock := 100 |}.

(** A compiler that cannot be started. *)
Definition compiler_denied (cmd : list pystr) (w : world) : proc_answer * world :=
  (RunRaised (OSError (lit "Permission denied")), w).

(** A compiler that exits with status 0 and writes nothing. *)
Definition compiler_idle (cmd : list pystr) (w : world) : proc_answer * world :=
  (Completed 0 [] [], w).

(** The lines of a report whose summary is interrupted by a second
    heading. *)
Definition sample_report_lines : list pystr :=
  [ lit "# Meta-Prompt Compiler Benchmark Report"; [];
    lit "## Executive Summary"; [];
    lit "- **Files processed**: 1"; lit "   ";
    lit "## Executive Summary (continued)";
    lit "- **Success rate**: 100.0%";
    lit "## Detailed Results"; lit "### abcd.llm" ].

(** * Properties *)

(** ** The filename sanitizer *)

Section SanitizerFacts.

Context `{Unicode}.

Lemma ascii_alnum_below_128 (c : N) : is_ascii_alnum c = true -> c < 128.
Proof.
  unfold is_ascii_alnum. intros Hc.
  repeat (apply orb_prop in Hc as [Hc|Hc]); apply andb_prop in Hc as [_ Hc];
    apply N.leb_le in Hc; lia.
Qed.

Lemma kept_underscore : kept ch_underscore = true.
Proof. reflexivity. Qed.

(** A character the substitution leaves alone is a kept one. *)
Lemma not_unsafe_kept (c : N) : re_unsafe c = false -> kept c = true.
Proof.
  unfold re_unsafe, re_word, isalnum, kept, ascii_safe. intros Hc.
  apply negb_false_iff in Hc.
  destruct (N.ltb_spec c 128) as [Hlt|Hge].
  - destruct (is_ascii_alnum c), (c =? ch_underscore), (c =? ch_dot), (c =? ch_hyphen);
      simpl in *; try discriminate; reflexivity.
  - replace (128 <=? c) with true by (symmetry; apply N.leb_le; lia).
    destruct (is_ascii_alnum c), (isalnum_high c), (c =? ch_underscore),
      (c =? ch_dot), (c =? ch_hyphen); simpl in *; try discriminate; reflexivity.
Qed.

(** And a kept character is left alone. *)
Lemma kept_not_unsafe (c : N) : kept c = true -> re_unsafe c = false.
Proof.
  unfold re_unsafe, re_word, isalnum, kept, ascii_safe. intros Hc.
  apply negb_false_iff.
  destruct (N.ltb_spec c 128) as [Hlt|Hge].
  - replace (128 <=? c) with false in Hc by (symmetry; apply N.leb_gt; lia).
    destruct (is_ascii_alnum c), (c =? ch_underscore), (c =? ch_dot), (c =? ch_hyphen);
      simpl in *; try discriminate; reflexivity.
  - destruct (is_ascii_alnum c) eqn:Ha.
    + apply ascii_alnum_below_128 in Ha. lia.
    + destruct (isalnum_high c), (128 <=? c), (c =? ch_underscore), (c =? ch_dot),
        (c =? ch_hyphen); simpl in *; try discriminate; reflexivity.
Qed.

Lemma re_sub_unsafe_kept (s : pystr) : forallb kept (re_sub_unsafe s) = true.
Proof.
  induction s as [|c s IH]; simpl; [reflexivity|].
  rewrite IH, andb_true_r.
  destruct (re_unsafe c) eqn:Hc; [apply kept_underscore | now apply not_unsafe_kept].
Qed.

Lemma re_sub_unsafe_id (s : pystr) :
  forallb kept s = true -> re_sub_unsafe s = s.
Proof.
  induction s as [|c s IH]; simpl; [reflexivity|].
  intros [Hc Hs]%andb_prop. rewrite (kept_not_unsafe c Hc). f_equal. now apply IH.
Qed.

Lemma lstrip_forallb (p : N -> bool) (c : N) (s : pystr) :
  forallb p s = true -> forallb p (lstrip c s) = true.
Proof.
  induction s as [|x s IH]; simpl; [reflexivity|].
  intros [Hx Hs]%andb_prop. destruct (x =? c); [now apply IH|].
  simpl. now rewrite Hx, Hs.
Qed.

Lemma lstrip_head (c : N) (s : pystr) : head (lstrip c s) <> Some c.
Proof.
  induction s as [|x s IH]; simpl; [discriminate|].
  destruct (N.eqb_spec x c) as [->|Hne]; [exact IH|].
  simpl. congruence.
Qed.

Lemma lstrip_id (c : N) (s : pystr) : head s <> Some c -> lstrip c s = s.
Proof.
  destruct s as [|x s]; simpl; [reflexivity|].
  intros Hx. destruct (N.eqb_spec x c) as [->|Hne]; congruence.
Qed.

Lemma forallb_take {A} (p : A -> bool) (n : nat) (l : list A) :
  forallb p l = true -> forallb p (take n l) = true.
Proof.
  revert n; induction l as [|x l IH]; intros [|n]; simpl; try reflexivity.
  intros [Hx Hl]%andb_prop. now rewrite Hx, IH.
Qed.

Lemma head_take_S {A} (n : nat) (l : list A) : head (take (S n) l) = head l.
Proof. destruct l; reflexivity. Qed.

(** What holds of every sanitized name. *)
Lemma sanitized_name_facts (filename : pystr) :
  let r := _sanitize_filename filename in
  forallb kept r = true /\ (length r <= 50)%nat
  /\ head r <> Some ch_dot /\ r <> [].
Proof.
  unfold _sanitize_filename. cbv zeta.
  pose proof (lstrip_forallb kept ch_dot _ (re_sub_unsafe_kept filename)) as Hk.
  pose proof (lstrip_head ch_dot (re_sub_unsafe filename)) as Hh.
  destruct (decide (lstrip ch_dot (re_sub_unsafe filename) = [])) as [He|Hne].
  - split; [|split; [|split]]; [reflexivity | simpl; lia | discriminate | discriminate].
  - set (u := lstrip ch_dot (re_sub_unsafe filename)) in *.
    split; [|split; [|split]].
    + now apply forallb_take.
    + rewrite length_take. lia.
    + now rewrite head_take_S.
    + destruct u; [congruence | discriminate].
Qed.

(** (C1, as amended) For every input string, the sanitized name contains
    only characters of [[A-Za-z0-9_.-]] or alphanumeric characters above
    the ASCII range, has at most 50 characters, does not start with a dot
    and is not empty. *)
Theorem sanitize_filename_safe (filename : pystr) :
  forallb kept (_sanitize_filename filename) = true
  /\ (length (_sanitize_filename filename) <= 50)%nat
  /\ head (_sanitize_filename filename) <> Some ch_dot
  /\ _sanitize_filename filename <> [].
Proof. exact (sanitized_name_facts filename). Qed.

(** (C2) The sanitizer is idempotent. *)
Theorem sanitize_filename_idempotent (filename : pystr) :
  _sanitize_filename (_sanitize_filename filename) = _sanitize_filename filename.
Proof.
  destruct (sanitized_name_facts filename) as (Hk & Hlen & Hh & Hne).
  set (r := _sanitize_filename filename) in *.
  unfold _sanitize_filename at 1. cbv zeta.
  rewrite (re_sub_unsafe_id r Hk), (lstrip_id ch_dot r Hh).
  destruct (decide (r = [])) as [He|_]; [contradiction|].
  apply take_ge. exact Hlen.
Qed.

End SanitizerFacts.

(** (C1, as stated) The sanitized name of the one-letter name [é] (U+00E9)
    is that letter, which is outside [[A-Za-z0-9_.-]]. *)
Lemma sanitize_filename_keeps_e_acute :
  @_sanitize_filename Latin1 [233] = [233]
  /\ ~ spec_safe_name (@_sanitize_filename Latin1 [233]).
Proof.
  split; [reflexivity|].
  intros (Hc & _). vm_compute in Hc. discriminate.
Qed.

(** ** Size reduction *)

Section ReductionFacts.

Context {F : Type} `{PyFloat F}.

Lemma reduction_percent_positive (o n : Z) :
  (0 < o)%Z ->
  reduction_percent o n
  = Ok (PFloat (f_mul (f_div (f_of_Z (o - n)) (f_of_Z o)) (f_of_Z 100))).
Proof.
  intros Ho. unfold reduction_percent, py_truediv. simpl.
  destruct (Z.eqb_spec o 0) as [->|_]; [lia|]. reflexivity.
Qed.


End ReductionFacts.

(** ** Runs in an environment *)

Section RunFacts.

Context {F S : Type} (h : handler F S).

Lemma run_bind {A B} (p : prog F A) (k : A -> prog F B) (s : S) :
  run h (prog_bind k p) s
  = let '(r, s1, t1) := run h p s in
    match r with
    | Ok a => let '(r', s2, t2) := run h (k a) s1 in (r', s2, t1 ++ t2)
    | Err e => (Err e, s1, t1)
    end.
Proof.
  revert s. induction p as [a|e|X ev k' IH]; intros s; simpl.
  - destruct (run h (k a) s) as [[r' s2] t2]. reflexivity.
  - reflexivity.
  - destruct (answer h ev s) as [x s']. rewrite IH.
    destruct (run h (k' x) s') as [[[a|e] s1] t1]; [|reflexivity].
    destruct (run h (k a) s1) as [[r' s2] t2]. reflexivity.
Qed.

Lemma run_try_except {A} (p : prog F A) (hd : exn -> option (prog F A)) (s : S) :
  run h (try_except p hd) s
  = let '(r, s1, t1) := run h p s in
    match r with
    | Ok a => (Ok a, s1, t1)
    | Err e =>
        match hd e with
        | Some q => let '(r', s2, t2) := run h q s1 in (r', s2, t1 ++ t2)
        | None => (Err e, s1, t1)
        end
    end.
Proof.
  revert s. induction p as [a|e|X ev k' IH]; intros s; simpl.
  - reflexivity.
  - destruct (hd e) as [q|]; [|reflexivity].
    destruct (run h q s) as [[r' s2] t2]. reflexivity.
  - destruct (answer h ev s) as [x s']. rewrite IH.
    destruct (run h (k' x) s') as [[[a|e] s1] t1]; [reflexivity|].
    destruct (hd e) as [q|]; [|reflexivity].
    destruct (run h q s1) as [[r' s2] t2]. reflexivity.
Qed.

End RunFacts.

(** ** One run of the compiler *)

#[global] Arguments path_str : simpl never.
#[global] Arguments join : simpl never.
#[global] Arguments output_file_of : simpl never.
#[global] Arguments command_of : simpl never.
#[global] Arguments count_lines : simpl never.
#[global] Arguments domain_re_match : simpl never.
#[global] Arguments Nat.ltb : simpl never.

(** One step of a run: the next answer of the environment, or the next
    test of the script. *)
Ltac run_step :=
  match goal with
  | |- context [answer ?h ?ev ?s] => destruct (answer h ev s) as [? ?] eqn:?
  | |- context [negb ?b] => destruct b eqn:?
  | |- context [if ?b then _ else _] => destruct b eqn:?
  | |- context [match ?a with Completed _ _ _ => _ | RunRaised _ => _ end] =>
      destruct a as [? ? ?|[]] eqn:?
  end; cbn.

(** The tests of the script read as propositions. *)
Ltac tests_as_props :=
  repeat match goal with
    | E : bool_decide _ = true |- _ => apply bool_decide_eq_true in E
    | E : bool_decide _ = false |- _ => apply bool_decide_eq_false in E
    | E : Nat.ltb _ _ = true |- _ => apply Nat.ltb_lt in E
    | E : Nat.ltb _ _ = false |- _ => apply Nat.ltb_ge in E
    | E : Z.eqb _ _ = true |- _ => apply Z.eqb_eq in E
    | E : Z.eqb _ _ = false |- _ => apply Z.eqb_neq in E
    end.

(** Looking a literal key up in a dictionary built by insertions. *)
Ltac lookup_now :=
  repeat (rewrite lookup_insert_ne by discriminate);
  rewrite ?lookup_insert_eq, ?lookup_empty.

(** Two sets of keys written out are equal. *)
Ltac keys_equal :=
  unfold failure_keys, completed_keys; apply set_eq; intros ?;
  rewrite !elem_of_union, !elem_of_singleton, ?elem_of_empty; tauto.

Ltac run_cases :=
  unfold outcome_of, trace_of, run_optimization, _validate_parameters,
    get_file_stats, call, mbind, prog_mbind;
  cbn; repeat run_step.

Section RunOptimizationFacts.

Context `{Unicode} {F S : Type} `{PyFloat F} (h : handler F S).
Context (self : MetaPromptBenchmark).
Implicit Types (input_file : Path) (mode goal domain : pystr) (s : S).

(** (C4) Whenever the child process exceeds the timeout, the outcome has
    [success] false, [error] "Timeout" and [execution_time] 30.0. *)
Theorem timeout_outcome input_file mode goal domain s :
  In (RunRaised TimeoutExpired)
     (omap spawn_answer (trace_of h (run_optimization self input_file mode goal domain) s)) ->
  exists d,
    outcome_of h (run_optimization self input_file mode goal domain) s = Ok d
    /\ d !! "success" = Some (VBool false)
    /\ d !! "error" = Some (VStr (lit "Timeout"))
    /\ d !! "execution_time" = Some (VNum (PFloat (f_of_Z 30))).
Proof.
  run_cases; intros Hin.
  all: try (exfalso; cbn in Hin; intuition discriminate).
  all: eexists; split; [reflexivity|]; unfold failure_outcome; simplify_map_eq; auto.
Qed.



(** Every process is spawned with the argument vector and the timeout of
    the script. *)
Lemma spawn_args_of_run input_file mode goal domain s cmd timeout :
  In (cmd, timeout)
     (omap spawn_args (trace_of h (run_optimization self input_file mode goal domain) s)) ->
  cmd = command_of self input_file (output_file_of self input_file) mode goal domain
  /\ timeout = 30%Z.
Proof.
  run_cases; intros Hin; cbn in Hin.
  all: try contradiction.
  all: destruct Hin as [[= <- <-]|[]]; split; reflexivity.
Qed.

(** The dictionaries [run_optimization] returns have one of three shapes. *)
Lemma run_optimization_shape input_file mode goal domain s d :
  outcome_of h (run_optimization self input_file mode goal domain) s = Ok d ->
  outcome_shape d.
Proof.
  run_cases; intros [= <-]; unfold outcome_shape, failure_outcome;
    rewrite !dom_insert_L, dom_empty_L;
    first [ left; keys_equal | right; left; keys_equal | right; right; keys_equal ].
Qed.

End RunOptimizationFacts.

(** ** The output path and the shape of the outcomes *)

Section OutcomeFacts.

Context `{Unicode} {F S : Type} `{PyFloat F} (h : handler F S).
Context (self : MetaPromptBenchmark).

(** (C10) The output path handed to the compiler is
    [demo_dir/temp/optimized_<sanitized stem>.txt]: it depends on the stem
    of the input file alone, so two runs for files of the same stem, under
    whatever configurations, are given the same output path. *)
Theorem output_path_from_stem (input1 input2 : Path)
    (mode1 goal1 domain1 mode2 goal2 domain2 : pystr) (s1 s2 : S)
    (cmd1 cmd2 : list pystr) (timeout1 timeout2 : Z) :
  path_stem input1 = path_stem input2 ->
  In (cmd1, timeout1)
     (omap spawn_args (trace_of h (run_optimization self input1 mode1 goal1 domain1) s1)) ->
  In (cmd2, timeout2)
     (omap spawn_args (trace_of h (run_optimization self input2 mode2 goal2 domain2) s2)) ->
  cmd1 !! 3%nat = cmd2 !! 3%nat
  /\ cmd1 !! 3%nat
     = Some (path_str (path_join (path_join (demo_dir self) (lit "temp"))
                         (lit "optimized_" ++ _sanitize_filename (path_stem input1)
                          ++ lit ".txt"))).
Proof.
  intros Hstem [-> _]%spawn_args_of_run [-> _]%spawn_args_of_run.
  unfold command_of, output_file_of. rewrite Hstem. split; reflexivity.
Qed.

(** What a loop collects satisfies what every turn of it ensures. *)
Lemma for_collect_Forall {A B} (P : B -> Prop) (body : A -> prog F B) (l : list A) :
  (forall x s r s' t, run h (body x) s = (Ok r, s', t) -> P r) ->
  forall s rs s' t,
    run h (for_collect l body) s = (Ok rs, s', t) ->
    Forall P rs /\ length rs = length l.
Proof.
  intros Hbody. induction l as [|x l IH]; intros s rs s' t; simpl.
  - intros [= <- _ _]. split; [constructor | reflexivity].
  - rewrite run_bind.
    destruct (run h (body x) s) as [[[y|e] s1] t1] eqn:Hx; [|discriminate].
    rewrite run_bind.
    destruct (run h (for_collect l body) s1) as [[[ys|e] s2] t2] eqn:Hl; [|discriminate].
    simpl. intros [= <- _ _].
    destruct (IH _ _ _ _ Hl) as [Hall Hlen].
    split; [constructor; [eapply Hbody; eassumption | exact Hall] | simpl; now rewrite Hlen].
Qed.

(** How a returned outcome came about, and what it then is. *)
Lemma run_optimization_paths (input_file : Path) (mode goal domain : pystr) (s : S)
    (d : gmap string (pyval F)) :
  let t := trace_of h (run_optimization self input_file mode goal domain) s in
  outcome_of h (run_optimization self input_file mode goal domain) s = Ok d ->
  (exists msg,
     outcome_of h (_validate_parameters input_file mode goal domain) s = Err (ValueError msg)
     /\ omap spawn_answer t = []
     /\ d = failure_outcome msg (f_of_Z 0) mode goal domain)
  \/ (omap spawn_answer t = [RunRaised TimeoutExpired]
      /\ d = failure_outcome (lit "Timeout") (f_of_Z 30) mode goal domain)
  \/ (exists returncode stdout stderr t0 t1,
        omap spawn_answer t = [Completed returncode stdout stderr]
        /\ omap clock_reading t = [t0; t1]
        /\ ((d = completed_metrics returncode (f_sub t1 t0) stdout stderr mode goal domain
             /\ ~ (returncode = 0%Z
                   /\ In true (omap (exists_answer (output_file_of self input_file))
                                 (after_spawn t))))
            \/ exists st,
                 returncode = 0%Z
                 /\ In true (omap (exists_answer (output_file_of self input_file))
                               (after_spawn t))
                 /\ d = <["output_stats" := VStats st]>
                          (completed_metrics returncode (f_sub t1 t0) stdout stderr
                                             mode goal domain))).
Proof.
  cbv zeta. run_cases; intros [= <-].
  all: try (exfalso; match goal with n : ?x <> ?x |- _ => exact (n eq_refl) end).
  all: first
    [ left; eexists; split; [reflexivity|]; split; reflexivity
    | right; left; split; reflexivity
    | right; right; do 5 eexists; split; [reflexivity|]; split; [reflexivity|];
      unfold completed_metrics;
      match goal with E : (_ =? _)%Z = _ |- _ => rewrite E end;
      first [ left; split; [reflexivity|]; tests_as_props; cbn;
              rewrite ?decide_True by reflexivity; intuition discriminate
            | right; eexists; split; [tests_as_props; assumption|];
              split; [|reflexivity];
              cbn; rewrite ?decide_True by reflexivity; left; reflexivity ] ].
Qed.

Lemma failure_outcome_dom (error : pystr) (execution_time : F) (mode goal domain : pystr) :
  dom (failure_outcome error execution_time mode goal domain) = failure_keys.
Proof. unfold failure_outcome. rewrite !dom_insert_L, dom_empty_L. keys_equal. Qed.

Lemma completed_metrics_dom (returncode : Z) (execution_time : F)
    (stdout stderr mode goal domain : pystr) :
  dom (completed_metrics returncode execution_time stdout stderr mode goal domain)
  = completed_keys.
Proof. unfold completed_metrics. rewrite !dom_insert_L, dom_empty_L. keys_equal. Qed.

(** What [benchmark_file] stores is what the calls of [run_optimization]
    returned, in the order of the calls. *)
Lemma benchmark_file_returned (input_file : Path) (s : S) (res : @file_result F) :
  outcome_of h (benchmark_file self input_file) s = Ok res ->
  exists s0, returned_in_turn h self input_file s0 configurations (optimizations res).
Proof.
  unfold outcome_of, benchmark_file, mbind, prog_mbind.
  generalize configurations. intros cfgs.
  rewrite run_bind.
  destruct (run h (call _) s) as [[[u|e] s1] t1]; [|discriminate].
  rewrite run_bind.
  destruct (run h (get_file_stats input_file) s1) as [[[stats|e] s2] t2]; [|discriminate].
  rewrite run_bind.
  destruct (run h (for_collect cfgs _) s2) as [[[opts|e] s3] t3] eqn:Hloop;
    [|discriminate].
  cbn [fst snd run]. intros [= <-]. cbn [optimizations]. exists s2.
  clear -Hloop. revert s2 opts s3 t3 Hloop.
  induction cfgs as [|[[mode goal] domain] cfgs IH]; intros s2 opts s3 t3.
  - cbn [for_collect run]. intros [= <- _ _]. exact I.
  - cbn [for_collect]. rewrite run_bind. rewrite run_bind.
    unfold call at 1. cbn [run].
    destruct (answer h (Print _) s2) as [[] s4] eqn:Hprint.
    destruct (run h (run_optimization self input_file mode goal domain) s4)
      as [[[d|e] s5] t5] eqn:Hrun; [|discriminate].
    rewrite run_bind.
    destruct (run h (for_collect cfgs _) s5) as [[[ds|e] s6] t6] eqn:Hrest; [|discriminate].
    cbn [run]. intros [= <- _ _]. cbn [returned_in_turn]. cbv zeta. rewrite Hprint. cbn [snd].
    exists s5, t5. split; [exact Hrun|]. exact (IH _ _ _ _ Hrest).
Qed.

(** (C8, as amended) Every outcome [run_optimization] returns contains
    [success], [execution_time], [mode], [goal] and [domain], and it has
    [stdout] and [stderr] exactly when it has no [error]. By the way it
    came about it is one of these records: for a validation failure, the
    record with the message as [error], the time [0.0] and no [stdout] or
    [stderr]; for a timeout, the same with [Timeout] and [30.0]; for a
    completed process, the record created with [success], the measured
    time, [stdout] and [stderr], or, when the exit code is 0 and the
    output file exists, that record with [output_stats] stored in it
    after its creation. Once returned, the records are not changed:
    [benchmark_file] keeps, for its four configurations in their order,
    the outcomes that the calls of [run_optimization] returned. *)
Theorem outcome_shapes (input_file : Path) (s : S) :
  (forall mode goal domain d,
     outcome_of h (run_optimization self input_file mode goal domain) s = Ok d ->
     let t := trace_of h (run_optimization self input_file mode goal domain) s in
     outcome_shape d
     /\ {[ "success"; "execution_time"; "mode"; "goal"; "domain" ]} ⊆ dom d
     /\ ("stdout" ∈ dom d <-> "error" ∉ dom d)
     /\ ("stderr" ∈ dom d <-> "error" ∉ dom d)
     /\ ((exists msg,
            outcome_of h (_validate_parameters input_file mode goal domain) s
            = Err (ValueError msg)
            /\ omap spawn_answer t = []
            /\ d = failure_outcome msg (f_of_Z 0) mode goal domain
            /\ dom d = failure_keys)
         \/ (omap spawn_answer t = [RunRaised TimeoutExpired]
             /\ d = failure_outcome (lit "Timeout") (f_of_Z 30) mode goal domain
             /\ dom d = failure_keys)
         \/ (exists returncode stdout stderr t0 t1,
               omap spawn_answer t = [Completed returncode stdout stderr]
               /\ omap clock_reading t = [t0; t1]
               /\ ((d = completed_metrics returncode (f_sub t1 t0) stdout stderr
                                          mode goal domain
                    /\ dom d = completed_keys
                    /\ ~ (returncode = 0%Z
                          /\ In true (omap (exists_answer (output_file_of self input_file))
                                        (after_spawn t))))
                   \/ (exists st,
                         returncode = 0%Z
                         /\ In true (omap (exists_answer (output_file_of self input_file))
                                       (after_spawn t))
                         /\ d = <["output_stats" := VStats st]>
                                  (completed_metrics returncode (f_sub t1 t0) stdout stderr
                                                     mode goal domain)
                         /\ dom d = completed_keys ∪ {[ "output_stats" ]})))))
  /\ (forall res,
        outcome_of h (benchmark_file self input_file) s = Ok res ->
        length (optimizations res) = 4%nat
        /\ Forall outcome_shape (optimizations res)
        /\ exists s0,
             returned_in_turn h self input_file s0 configurations (optimizations res)).
Proof.
  split.
  - intros mode goal domain d Hd. cbv zeta.
    pose proof (run_optimization_shape h self _ _ _ _ _ _ Hd) as Hshape.
    split; [exact Hshape|].
    split; [|split; [|split]].
    1-3: unfold outcome_shape, failure_keys, completed_keys in Hshape;
      destruct Hshape as [->|[->| ->]]; set_solver.
    destruct (run_optimization_paths input_file mode goal domain s d Hd)
      as [(msg & Hv & Hs & ->)|[(Hs & ->)|(rc & out & err & t0 & t1 & Hs & Hc & Hm)]].
    + left. exists msg. split_and!; auto using failure_outcome_dom.
    + right. left. split_and!; auto using failure_outcome_dom.
    + right. right. exists rc, out, err, t0, t1. split; [exact Hs|]. split; [exact Hc|].
      destruct Hm as [[-> Hno]|(st & Hrc & Hex & ->)].
      * left. split; [reflexivity|]. split; [apply completed_metrics_dom|exact Hno].
      * right. exists st. split_and!; auto;
          rewrite dom_insert_L, completed_metrics_dom; set_solver.
  - intros res Hres.
    destruct (benchmark_file_returned input_file s res Hres) as [s0 Hret].
    assert (Hshapes : length (optimizations res) = 4%nat
                      /\ Forall outcome_shape (optimizations res)).
    { clear Hret. revert Hres. unfold outcome_of, benchmark_file, mbind, prog_mbind.
      rewrite run_bind.
      destruct (run h (call _) s) as [[[u|e] s1] t1]; [|discriminate].
      rewrite run_bind.
      destruct (run h (get_file_stats input_file) s1) as [[[stats|e] s2] t2]; [|discriminate].
      rewrite run_bind.
      destruct (run h (for_collect configurations _) s2) as [[[opts|e] s3] t3] eqn:Hloop;
        [|discriminate].
      simpl. intros [= <-]. simpl.
      apply (for_collect_Forall outcome_shape) in Hloop;
        [destruct Hloop; split; assumption|].
      intros [[mode goal] domain] s4 r s5 t5. rewrite run_bind.
      destruct (run h (call _) s4) as [[[u'|e] s6] t6]; [|discriminate].
      destruct (run h (run_optimization self input_file mode goal domain) s6)
        as [[r' s7] t7] eqn:Hrun.
      intros [= -> _ _].
      apply (run_optimization_shape h self input_file mode goal domain s6).
      unfold outcome_of. now rewrite Hrun. }
    destruct Hshapes as [Hlen Hall]. split; [exact Hlen|]. split; [exact Hall|].
    exists s0. exact Hret.
Qed.

End OutcomeFacts.

(** ** The whole run *)

Lemma cql_not_examples (demo : Path) :
  path_join (path_join (path_parent demo) (lit "build")) (lit "cql")
  <> path_join demo (lit "examples").
Proof.
  intros Heq. apply (f_equal parts) in Heq. simpl in Heq.
  apply app_inj_tail in Heq as [_ Heq]. vm_compute in Heq. discriminate.
Qed.

(** One step of the run of [main]: as [run_step], and what is left of the
    run once the examples were found is taken as it comes. *)
Ltac main_step :=
  match goal with
  | |- context [answer ?h ?ev ?s] => destruct (answer h ev s) as [? ?] eqn:?
  | |- context [decide (?p = ?q)] =>
      destruct (decide (p = q)) as [Heq|?];
      [exfalso; exact (cql_not_examples _ Heq)|]
  | |- context [negb ?b] => destruct b eqn:?
  | |- context [if ?b then _ else _] => destruct b eqn:?
  | |- context [run ?h ?p ?s] => destruct (run h p s) as [[? ?] ?] eqn:?
  end; cbn.

Section MainFacts.

Context `{Unicode} {F S : Type} `{PyFloat F} (h : handler F S).

(** (C9) When the examples directory is reported absent, or its listing
    has no [.llm] file, [main] benchmarks nothing and writes no report: it
    prints the message of the setup error and returns 1, the exit status
    of the process. *)
Theorem no_examples_aborts (script : Path) (s : S) :
  let examples_dir := path_join (path_parent script) (lit "examples") in
  let t := trace_of h (main script) s in
  head (omap (exists_answer examples_dir) t) = Some false
  \/ head (omap (glob_answer examples_dir (lit "*.llm")) t) = Some [] ->
  outcome_of h (main script) s = Ok 1%Z
  /\ existsb is_write t = false
  /\ existsb is_spawn t = false
  /\ exists msg,
       (msg = lit "Examples directory not found: " ++ path_str examples_dir
        \/ msg = lit "No .llm files found in " ++ path_str examples_dir)
       /\ last (omap printed t) = Some ([10060] ++ lit " Benchmark failed: " ++ msg).
Proof.
  cbv zeta. unfold outcome_of, trace_of, main, __init__, run_full_benchmark, call,
    mbind, prog_mbind.
  cbn. repeat main_step.
  all: intros Hyp; tests_as_props.
  all: try (exfalso; destruct Hyp as [Hyp|Hyp]; simplify_eq; congruence).
  all: try (exfalso;
            match goal with n : ~ _ |- _ => apply n; first [reflexivity | split; reflexivity] end).
  all: split; [reflexivity|]; split; [reflexivity|]; split; [reflexivity|].
  all: eexists; split; [|reflexivity]; first [left; reflexivity | right; reflexivity].
Qed.
End MainFacts.

(** ** The executive summary *)

Section SummaryFacts.

Context {F : Type} `{PyFloat F}.

Implicit Types (opt : gmap string (pyval F)) (stats : FileStats).

Lemma tally_outcome_wf stats acc opt :
  outcome_wf opt = true ->
  tally_outcome stats acc opt = Ok (tally_add stats acc opt).
Proof.
  destruct acc as [n total reds].
  unfold outcome_wf, tally_outcome, tally_add, counted_reduction, percent.
  unfold getitem, succeeded, time_of, output_chars, mbind, result_mbind, result_bind.
  destruct (opt !! "success") as [[[]| | |]|]; try discriminate;
    cbn [truthy successful_optimizations total_execution_time size_reductions].
  - destruct (opt !! "execution_time") as [[| t | |]|]; try discriminate.
    cbn [as_num].
    destruct (opt !! "output_stats") as [[| | |st]|]; try discriminate; intros _.
    + rewrite bool_decide_eq_true_2 by (eexists; reflexivity). cbn [chars_of].
      destruct (Z.ltb_spec 0 (fs_chars stats)) as [Hpos|Hle].
      * rewrite (reduction_percent_positive _ _ Hpos). reflexivity.
      * cbn [option_list]. now rewrite app_nil_r.
    + rewrite bool_decide_eq_false_2 by (intros [? [=]]).
      cbn [option_list]. now rewrite app_nil_r.
  - intros _. cbn [option_list]. now rewrite Z.add_0_r, app_nil_r.
Qed.

Lemma fold_tally_outcome stats (opts : list (gmap string (pyval F))) acc :
  forallb outcome_wf opts = true ->
  fold_result (tally_outcome stats) opts acc = Ok (fold_left (tally_add stats) opts acc).
Proof.
  revert acc. induction opts as [|opt opts IH]; intros acc; simpl; [reflexivity|].
  intros [Hopt Hopts]%andb_prop. rewrite (tally_outcome_wf _ _ _ Hopt). cbn.
  now apply IH.
Qed.

Lemma tally_from_file stats (opts : list (gmap string (pyval F))) (acc : tally) :
  fold_left (tally_add stats) opts acc = tally_from acc (List.map (pair stats) opts).
Proof.
  unfold tally_from. revert acc.
  induction opts as [|opt opts IH]; intros acc; simpl; [reflexivity|apply IH].
Qed.

Lemma fold_tally_results (results : list file_result) (acc : tally) :
  Forall (fun res => forallb outcome_wf (optimizations res) = true) results ->
  fold_result
    (fun acc res => fold_result (tally_outcome (original_stats res)) (optimizations res) acc)
    results acc
  = Ok (tally_from acc (outcomes_of results)).
Proof.
  intros Hwf. revert acc. induction Hwf as [|res results Hres _ IH]; intros acc; simpl;
    [reflexivity|].
  rewrite (fold_tally_outcome _ _ _ Hres). cbn. rewrite IH, tally_from_file.
  unfold tally_from. now rewrite fold_left_app.
Qed.

Lemma tally_from_fields (ps : list (FileStats * gmap string (pyval F))) (acc : tally) :
  successful_optimizations (tally_from acc ps)
  = (successful_optimizations acc
     + Z.of_nat (length (List.filter (fun p => succeeded (snd p)) ps)))%Z
  /\ total_execution_time (tally_from acc ps)
     = fold_left py_add
         (List.map (fun p => time_of (snd p))
                   (List.filter (fun p => succeeded (snd p)) ps))
         (total_execution_time acc)
  /\ size_reductions (tally_from acc ps)
     = size_reductions acc ++ omap counted_reduction ps.
Proof.
  revert acc. induction ps as [|[stats opt] ps IH]; intros acc.
  - simpl. rewrite Z.add_0_r, app_nil_r. split; [|split]; reflexivity.
  - change (tally_from acc ((stats, opt) :: ps))
      with (tally_from (tally_add stats acc opt) ps).
    destruct (IH (tally_add stats acc opt)) as (Hn & Ht & Hr). rewrite Hn, Ht, Hr.
    unfold tally_add.
    cbn [successful_optimizations total_execution_time size_reductions].
    change (omap counted_reduction ((stats, opt) :: ps))
      with (match counted_reduction (stats, opt) with
            | Some y => y :: omap counted_reduction ps
            | None => omap counted_reduction ps
            end).
    generalize (counted_reduction (stats, opt)). intros c.
    simpl. destruct (succeeded opt); destruct c; simpl;
      (split; [lia | split; [reflexivity | now rewrite <- ?app_assoc, ?app_nil_r]]).
Qed.

Lemma truediv_guarded (a : pynum F) (n : Z) :
  py_truediv a (PInt (Z.max n 1)) = Ok (PFloat (f_div (to_float a) (f_of_Z (Z.max n 1)))).
Proof.
  unfold py_truediv, num_is_zero. destruct (Z.eqb_spec (Z.max n 1) 0) as [Hz|_]; [lia|].
  reflexivity.
Qed.

(** The summary of well-formed results, written out. *)
Lemma summarize_wf (results : list file_result) :
  Forall (fun res => forallb outcome_wf (optimizations res) = true) results ->
  summarize results
  = Ok {| total_files := Z.of_nat (length results);
          successes := Z.of_nat (length (successful_outcomes results));
          avg_execution_time :=
            PFloat (f_div (to_float (total_time results))
                          (f_of_Z (Z.max (Z.of_nat (length (successful_outcomes results))) 1)));
          avg_size_reduction :=
            guarded_mean (omap counted_reduction (outcomes_of results));
          success_rate :=
            PFloat (f_mul
                      (f_div (f_of_Z (Z.of_nat (length (successful_outcomes results))))
                             (f_of_Z (Z.max (Z.of_nat (length results) * 4) 1)))
                      (f_of_Z 100)) |}.
Proof.
  intros Hwf. unfold summarize, tally_results. rewrite (fold_tally_results _ _ Hwf).
  destruct (tally_from_fields (outcomes_of results)
              {| successful_optimizations := 0;
                 total_execution_time := PFloat (f_of_Z 0);
                 size_reductions := [] |}) as (Hn & Ht & Hr).
  cbn [successful_optimizations total_execution_time size_reductions] in Hn, Ht, Hr.
  rewrite Z.add_0_l in Hn. rewrite app_nil_l in Hr.
  unfold mbind, result_mbind, result_bind. rewrite Hn, Ht, Hr, !truediv_guarded.
  reflexivity.
Qed.

Lemma outcomes_of_length (results : list (@file_result F)) :
  Forall (fun res => length (optimizations res) = 4%nat) results ->
  Z.of_nat (length (outcomes_of results)) = (Z.of_nat (length results) * 4)%Z.
Proof.
  unfold outcomes_of. induction 1 as [|res results Hres _ IH]; simpl; [reflexivity|].
  rewrite length_app, length_map, Hres. lia.
Qed.

(** (C7, as amended) For results whose outcomes are well formed, the
    summary counts the files and the successful outcomes; its mean
    execution time is the sum over the successful outcomes divided by
    [max(successes, 1)]; its mean size reduction is taken over the
    successful outcomes that have output statistics and whose file is not
    empty, divided by [max] of their number and 1; and its success rate is
    [successes / max(files * 4, 1) * 100], where [files * 4] is the number
    of outcomes when every file has its four. *)
Theorem summary_means (results : list file_result) :
  Forall (fun res => forallb outcome_wf (optimizations res) = true) results ->
  exists s,
    summarize results = Ok s
    /\ total_files s = Z.of_nat (length results)
    /\ successes s = Z.of_nat (length (successful_outcomes results))
    /\ avg_execution_time s
       = PFloat (f_div (to_float (total_time results))
                       (f_of_Z (Z.max (successes s) 1)))
    /\ avg_size_reduction s = guarded_mean (omap counted_reduction (outcomes_of results))
    /\ success_rate s
       = PFloat (f_mul (f_div (f_of_Z (successes s))
                              (f_of_Z (Z.max (total_files s * 4) 1)))
                       (f_of_Z 100))
    /\ (Forall (fun res => length (optimizations res) = 4%nat) results ->
        (total_files s * 4)%Z = Z.of_nat (length (outcomes_of results))).
Proof.
  intros Hwf. eexists. split; [exact (summarize_wf results Hwf)|].
  cbn [total_files successes avg_execution_time avg_size_reduction success_rate].
  repeat (split; [reflexivity|]).
  intros Hfour. symmetry. now apply outcomes_of_length.
Qed.

End SummaryFacts.

(** ** More on the filename sanitizer *)

Section SanitizerMore.

Context `{Unicode}.

Lemma re_sub_unsafe_ascii (s : pystr) :
  forallb is_ascii s = true -> forallb is_ascii (re_sub_unsafe s) = true.
Proof.
  induction s as [|c s IH]; simpl; [reflexivity|].
  intros [Hc Hs]%andb_prop. rewrite (IH Hs), andb_true_r.
  destruct (re_unsafe c); [reflexivity | exact Hc].
Qed.

Lemma kept_ascii_safe (c : N) : kept c = true -> is_ascii c = true -> ascii_safe c = true.
Proof.
  unfold kept, is_ascii. intros Hk Hc%N.ltb_lt.
  replace (128 <=? c) with false in Hk by (symmetry; apply N.leb_gt; lia).
  now rewrite andb_false_l, orb_false_r in Hk.
Qed.

Lemma forallb_and_ascii (s : pystr) :
  forallb kept s = true -> forallb is_ascii s = true -> forallb ascii_safe s = true.
Proof.
  induction s as [|c s IH]; simpl; [reflexivity|].
  intros [Hk Hks]%andb_prop [Hc Hcs]%andb_prop.
  now rewrite (kept_ascii_safe c Hk Hc), IH.
Qed.

(** (X1) For a name of ASCII characters the sanitized name has the property
    the specification states: only characters of [[A-Za-z0-9_.-]], at most
    50 of them, no leading dot, not empty. *)
Theorem sanitize_ascii_input_safe (filename : pystr) :
  forallb is_ascii filename = true ->
  spec_safe_name (_sanitize_filename filename).
Proof.
  intros Hascii.
  destruct (sanitized_name_facts filename) as (Hk & Hlen & Hh & Hne).
  split; [|split; [exact Hlen | split; [exact Hh | exact Hne]]].
  apply forallb_and_ascii; [exact Hk|].
  unfold _sanitize_filename. cbv zeta. apply forallb_take.
  destruct (decide (lstrip ch_dot (re_sub_unsafe filename) = [])); [reflexivity|].
  now apply lstrip_forallb, re_sub_unsafe_ascii.
Qed.

Lemma kept_forallb_not_in (s : pystr) (c : N) :
  forallb kept s = true -> kept c = false -> ~ In c s.
Proof.
  intros Hs Hc Hin. rewrite forallb_forall in Hs. specialize (Hs c Hin). congruence.
Qed.

(** (X2) Whatever the input, the sanitized name has no path separator, no
    backslash, no NUL and no space, and it is neither [.] nor [..]: it
    names an entry of the directory it is put in. *)
Theorem sanitize_no_traversal (filename : pystr) :
  ~ In 47 (_sanitize_filename filename)
  /\ ~ In 92 (_sanitize_filename filename)
  /\ ~ In 0 (_sanitize_filename filename)
  /\ ~ In 32 (_sanitize_filename filename)
  /\ _sanitize_filename filename <> lit "."
  /\ _sanitize_filename filename <> lit "..".
Proof.
  destruct (sanitized_name_facts filename) as (Hk & _ & Hh & _).
  repeat split; try (apply kept_forallb_not_in; [exact Hk | reflexivity]).
  all: intros Heq; rewrite Heq in Hh; apply Hh; reflexivity.
Qed.

(** (X3) The sanitizer leaves a name as it is exactly when the name is already
    a sanitized one: kept characters only, at most 50, no leading dot, not
    empty. *)
Theorem sanitize_fixed_points (filename : pystr) :
  _sanitize_filename filename = filename
  <-> forallb kept filename = true /\ (length filename <= 50)%nat
      /\ head filename <> Some ch_dot /\ filename <> [].
Proof.
  split.
  - intros Heq. rewrite <- Heq. exact (sanitized_name_facts filename).
  - intros (Hk & Hlen & Hh & Hne). unfold _sanitize_filename. cbv zeta.
    rewrite (re_sub_unsafe_id filename Hk), (lstrip_id ch_dot filename Hh).
    destruct (decide (filename = [])) as [He|_]; [contradiction|].
    now apply take_ge.
Qed.

Lemma lstrip_re_sub_unsafe (s : pystr) :
  lstrip ch_dot (re_sub_unsafe s) = re_sub_unsafe (lstrip ch_dot s).
Proof.
  induction s as [|c s IH]; [reflexivity|].
  change (re_sub_unsafe (c :: s))
    with ((if re_unsafe c then ch_underscore else c) :: re_sub_unsafe s).
  cbn [lstrip]. destruct (N.eqb_spec c ch_dot) as [->|Hne].
  - change (re_unsafe ch_dot) with false. cbv iota.
    change (ch_dot =? ch_dot) with true. cbv iota. exact IH.
  - change (re_sub_unsafe (c :: s))
      with ((if re_unsafe c then ch_underscore else c) :: re_sub_unsafe s).
    destruct (re_unsafe c).
    + reflexivity.
    + destruct (N.eqb_spec c ch_dot); [contradiction|reflexivity].
Qed.

Lemma re_sub_unsafe_length (s : pystr) : length (re_sub_unsafe s) = length s.
Proof. unfold re_sub_unsafe. apply length_map. Qed.

(** (X4) The length of the sanitized name: the placeholder's 7 characters when
    nothing but leading dots was given, and otherwise the length of the
    name without its leading dots, cut at 50. *)
Theorem sanitize_length (filename : pystr) :
  length (_sanitize_filename filename)
  = match lstrip ch_dot filename with
    | [] => 7%nat
    | rest => Nat.min 50 (length rest)
    end.
Proof.
  unfold _sanitize_filename. cbv zeta. rewrite lstrip_re_sub_unsafe.
  destruct (lstrip ch_dot filename) as [|c rest] eqn:Hs.
  - reflexivity.
  - destruct (decide (re_sub_unsafe (c :: rest) = [])) as [He|_]; [discriminate|].
    rewrite length_take, re_sub_unsafe_length. reflexivity.
Qed.

End SanitizerMore.

(** ** Validation *)

Lemma drop_domain_chars_app (body rest : pystr) :
  forallb domain_char body = true ->
  drop_domain_chars (body ++ rest) = drop_domain_chars rest.
Proof.
  induction body as [|c body IH]; simpl; [reflexivity|].
  intros [Hc Hb]%andb_prop. rewrite Hc. now apply IH.
Qed.

Lemma drop_domain_chars_split (d : pystr) :
  exists body,
    d = body ++ drop_domain_chars d
    /\ forallb domain_char body = true
    /\ match drop_domain_chars d with
       | [] => True
       | c :: _ => domain_char c = false
       end.
Proof.
  induction d as [|c d (body & Hd & Hb & Hrest)]; simpl.
  - exists []. repeat split.
  - destruct (domain_char c) eqn:Hc.
    + exists (c :: body). simpl. rewrite Hc, Hb. repeat split; [now f_equal | exact Hrest].
    + exists []. repeat split. exact Hc.
Qed.

(** (X5) The domains the pattern accepts: one or more characters of
    [[a-zA-Z0-9_-]], and also such a name followed by one newline, which
    [$] lets through. *)
Theorem domain_re_match_spec (domain : pystr) :
  domain_re_match domain = true
  <-> exists body,
        body <> [] /\ forallb domain_char body = true
        /\ (domain = body \/ domain = body ++ [ch_newline]).
Proof.
  unfold domain_re_match. split.
  - destruct domain as [|c d]; [discriminate|].
    intros [Hc Hrest]%andb_prop.
    destruct (drop_domain_chars_split (c :: d)) as (body & Hd & Hb & Hhead).
    assert (Hbody : body <> []).
    { intros ->. cbn [app] in Hd. rewrite <- Hd in Hhead. congruence. }
    exists body. split; [exact Hbody|]. split; [exact Hb|].
    destruct (drop_domain_chars (c :: d)) as [|c' [|c'' rest]]; try discriminate.
    + left. now rewrite app_nil_r in Hd.
    + right. apply N.eqb_eq in Hrest. now subst c'.
  - intros (body & Hne & Hb & [->| ->]).
    + destruct body as [|c body]; [contradiction|].
      rewrite <- (app_nil_r (c :: body)), (drop_domain_chars_app _ _ Hb).
      simpl in Hb. apply andb_prop in Hb as [-> _]. reflexivity.
    + destruct body as [|c body]; [contradiction|].
      change ((c :: body) ++ [ch_newline]) with (c :: (body ++ [ch_newline])).
      change (c :: (body ++ [ch_newline])) with ((c :: body) ++ [ch_newline]) at 2.
      rewrite (drop_domain_chars_app _ _ Hb).
      simpl in Hb. apply andb_prop in Hb as [-> _]. reflexivity.
Qed.

Ltac validate_cases :=
  unfold outcome_of, trace_of, _validate_parameters, call, mbind, prog_mbind;
  cbn; repeat run_step.

Section ValidationFacts.

Context {F S : Type} (h : handler F S).
Implicit Types (input_file : Path) (mode goal domain : pystr) (s : S).

(** (X6) Validation accepts exactly when the input file exists and is a regular
    file, the mode and the goal are among the valid ones, and the domain
    matches the pattern and has at most 64 characters. Accepting or not,
    it asks nothing of the environment but [exists()] and [is_file()] of
    the input file. *)
Theorem validation_accepts_iff input_file mode goal domain s :
  (outcome_of h (_validate_parameters input_file mode goal domain) s = Ok tt
   <-> fst (answer h (PathExists input_file) s) = true
       /\ fst (answer h (PathIsFile input_file) (snd (answer h (PathExists input_file) s)))
          = true
       /\ mode ∈ valid_modes /\ goal ∈ valid_goals
       /\ domain_re_match domain = true /\ (length domain <= 64)%nat)
  /\ forallb (is_query input_file)
       (trace_of h (_validate_parameters input_file mode goal domain) s) = true.
Proof.
  validate_cases; tests_as_props.
  all: split; [|cbn; rewrite ?bool_decide_eq_true_2 by reflexivity; reflexivity].
  all: split; [intros Hok | intros (H1 & H2 & H3 & H4 & H5 & H6)].
  all: try discriminate Hok.
  all: try reflexivity.
  all: cbn in *; try congruence; try contradiction; try lia.
  all: simplify_eq; split_and!; auto.
Qed.

(** (X7) The checks are made in a fixed order and the first that fails gives
    the message: a missing file is reported whatever the mode, the goal
    and the domain are, before [is_file()] is asked; and an invalid mode
    of an existing regular file is reported whatever the goal and the
    domain are. *)
Theorem validation_reports_first_failure input_file mode goal domain s :
  (fst (answer h (PathExists input_file) s) = false ->
   outcome_of h (_validate_parameters input_file mode goal domain) s
   = Err (ValueError (lit "Input file does not exist: " ++ path_str input_file))
   /\ length (trace_of h (_validate_parameters input_file mode goal domain) s) = 1%nat)
  /\ (fst (answer h (PathExists input_file) s) = true ->
      fst (answer h (PathIsFile input_file) (snd (answer h (PathExists input_file) s)))
      = true ->
      mode ∉ valid_modes ->
      outcome_of h (_validate_parameters input_file mode goal domain) s
      = Err (ValueError (lit "Invalid mode '" ++ mode ++ lit "'. Must be one of: "
                         ++ lit "LOCAL_ONLY, CACHED_LLM, FULL_LLM, ASYNC_LLM"))).
Proof.
  validate_cases; tests_as_props.
  all: split; [intros Hex | intros Hex Hisf Hmode].
  all: try (cbn in *; congruence).
  all: try (split; reflexivity).
  all: cbn in *; try contradiction.
  all: vm_compute; reflexivity.
Qed.

End ValidationFacts.

(** ** More on one run of the compiler *)

Lemma path_parent_join (p : Path) (name : pystr) : path_parent (path_join p name) = p.
Proof.
  destruct p as [r ps]. unfold path_parent, path_join. simpl.
  now rewrite removelast_last.
Qed.

Section RunOptimizationMore.

Context `{Unicode} {F S : Type} `{PyFloat F} (h : handler F S).
Context (self : MetaPromptBenchmark).
Implicit Types (input_file : Path) (mode goal domain : pystr) (s : S).

(** (X8) Whatever the input file is called, the output file is a direct child
    of [demo_dir/temp]: the name joined on is one component, with no [/]
    and no NUL, it starts with [optimized_], ends in [.txt] and has at
    most 64 characters. *)
Theorem output_file_in_temp input_file :
  let name := lit "optimized_" ++ _sanitize_filename (path_stem input_file) ++ lit ".txt" in
  path_parent (output_file_of self input_file) = path_join (demo_dir self) (lit "temp")
  /\ path_name (output_file_of self input_file) = name
  /\ ~ In 47 name /\ ~ In 0 name
  /\ (15 <= length name <= 64)%nat.
Proof.
  cbv zeta. unfold output_file_of. cbv zeta.
  destruct (sanitized_name_facts (path_stem input_file)) as (Hk & Hlen & _ & Hne).
  cbv zeta in Hk, Hlen, Hne.
  split; [apply path_parent_join|]. split.
  { unfold path_name, path_join. cbn [parts]. apply last_last. }
  assert (Hnot : forall c, kept c = false -> ~ In c (lit "optimized_") ->
                           ~ In c (lit ".txt") ->
                           ~ In c (lit "optimized_" ++ _sanitize_filename (path_stem input_file)
                                   ++ lit ".txt")).
  { intros c Hc H1 H2 Hin. apply in_app_or in Hin as [Hin|Hin]; [now apply H1|].
    apply in_app_or in Hin as [Hin|Hin]; [|now apply H2].
    rewrite forallb_forall in Hk. specialize (Hk c Hin). congruence. }
  split; [apply Hnot; [reflexivity| |]; vm_compute; intuition discriminate|].
  split; [apply Hnot; [reflexivity| |]; vm_compute; intuition discriminate|].
  rewrite !length_app.
  change (length (lit "optimized_")) with 10%nat. change (length (lit ".txt")) with 4%nat.
  destruct (_sanitize_filename (path_stem input_file)) as [|c r]; [contradiction|].
  cbn [length] in *. lia.
Qed.

(** (X9) An exception of [subprocess.run] other than the timeout is not turned
    into an outcome: [run_optimization] raises it, and asks nothing more
    of the environment. *)
Theorem spawn_failure_propagates input_file mode goal domain s e :
  In (RunRaised e)
     (omap spawn_answer (trace_of h (run_optimization self input_file mode goal domain) s)) ->
  e <> TimeoutExpired ->
  outcome_of h (run_optimization self input_file mode goal domain) s = Err e
  /\ after_spawn (trace_of h (run_optimization self input_file mode goal domain) s) = [].
Proof.
  run_cases; intros Hin Hne; cbn in Hin.
  all: try (exfalso; intuition discriminate).
  all: destruct Hin as [Hin|[]]; simplify_eq.
  all: split; reflexivity.
Qed.

(** (X10) A run starts at most one process, with the fixed argument
    vector and a timeout of 30. When validation rejects the parameters,
    no process is started and no directory is made; when it accepts them,
    [mkdir] is called once, on the scratch directory [demo_dir/temp], and
    every outcome that is then returned comes from a run that started the
    process exactly once. *)
Theorem run_spawns_once input_file mode goal domain s :
  let t := trace_of h (run_optimization self input_file mode goal domain) s in
  let cmd := ([ path_str (cql_executable self); lit "--optimize";
                path_str input_file; path_str (output_file_of self input_file);
                lit "--mode"; mode; lit "--goal"; goal; lit "--domain"; domain;
                lit "--show-metrics"; lit "--show-validation" ], 30%Z) in
  (omap spawn_args t = [] \/ omap spawn_args t = [cmd])
  /\ match outcome_of h (_validate_parameters input_file mode goal domain) s with
     | Err e =>
         (exists msg, e = ValueError msg)
         /\ omap spawn_args t = [] /\ omap mkdir_arg t = []
     | Ok _ =>
         omap mkdir_arg t = [ path_join (demo_dir self) (lit "temp") ]
         /\ forall d,
              outcome_of h (run_optimization self input_file mode goal domain) s = Ok d ->
              omap spawn_args t = [cmd]
     end.
Proof.
  cbv zeta. run_cases.
  all: split; [first [left; reflexivity | right; reflexivity]|].
  all: first [ split; [eexists; reflexivity|]; split; reflexivity
             | split; [cbn; unfold output_file_of; now rewrite path_parent_join|];
               intros d _; reflexivity ].
Qed.

(** (X11) Every outcome returned repeats the mode, the goal and the domain it
    was asked for, and has the keys and the types of values the report
    reads; it has an [error] exactly when it does not come from a
    completed process. *)
Theorem outcome_echoes_configuration input_file mode goal domain s d :
  outcome_of h (run_optimization self input_file mode goal domain) s = Ok d ->
  d !! "mode" = Some (VStr mode)
  /\ d !! "goal" = Some (VStr goal)
  /\ d !! "domain" = Some (VStr domain)
  /\ reportable d = true
  /\ outcome_wf d = true
  /\ (d !! "error" = None
      <-> exists returncode stdout stderr,
            In (Completed returncode stdout stderr)
               (omap spawn_answer
                  (trace_of h (run_optimization self input_file mode goal domain) s))).
Proof.
  run_cases; intros [= <-]; unfold failure_outcome, reportable, outcome_wf.
  all: split; [lookup_now; reflexivity|].
  all: split; [lookup_now; reflexivity|].
  all: split; [lookup_now; reflexivity|].
  all: split; [lookup_now; reflexivity|].
  all: split; [lookup_now; reflexivity|].
  all: lookup_now; cbn; split.
  all: try discriminate.
  all: try (intros _; do 3 eexists; left; reflexivity).
  all: try (intros (? & ? & ? & Hin); exfalso; intuition discriminate).
  all: try reflexivity.
Qed.

(** (X12) When the process completes, the clock has been read exactly
    twice, just before and just after the process, and the execution time
    of every outcome then returned is the difference of the two
    readings. *)
Theorem completed_execution_time input_file mode goal domain s returncode stdout stderr :
  In (Completed returncode stdout stderr)
     (omap spawn_answer (trace_of h (run_optimization self input_file mode goal domain) s)) ->
  exists t0 t1,
    omap clock_reading (trace_of h (run_optimization self input_file mode goal domain) s)
    = [t0; t1]
    /\ forall d,
         outcome_of h (run_optimization self input_file mode goal domain) s = Ok d ->
         d !! "execution_time" = Some (VNum (PFloat (f_sub t1 t0))).
Proof.
  run_cases; intros Hin; cbn in Hin.
  all: try (exfalso; intuition discriminate).
  all: do 2 eexists; split; [reflexivity|]; intros d [= <-].
  all: lookup_now; reflexivity.
Qed.

End RunOptimizationMore.

(** ** File statistics *)

Lemma count_lines_nil (open_line : bool) :
  count_lines open_line [] = (if open_line then 1 else 0)%Z.
Proof. reflexivity. Qed.

Lemma count_lines_crlf (open_line : bool) (text : pystr) :
  count_lines open_line (13 :: 10 :: text) = (1 + count_lines false text)%Z.
Proof. reflexivity. Qed.

Lemma count_lines_cons (open_line : bool) (c : N) (text : pystr) :
  c <> 13 \/ head text <> Some 10 ->
  count_lines open_line (c :: text)
  = if is_linebreak c then (1 + count_lines false text)%Z else count_lines true text.
Proof.
  intros Hc. destruct c as [|p]; [reflexivity|].
  do 4 (destruct p as [p|p|]; try reflexivity).
  destruct text as [|c' text']; [reflexivity|].
  destruct c' as [|p]; [reflexivity|].
  do 4 (destruct p as [p|p|]; try reflexivity).
  cbn in Hc. destruct Hc as [Hc|Hc]; congruence.
Qed.

(** A text has at least one line unless it is empty, and no more lines
    than characters. *)
Lemma count_lines_bounds (n : nat) (text : pystr) (open_line : bool) :
  (length text <= n)%nat ->
  ((if open_line || match text with [] => false | _ :: _ => true end then 1 else 0)
   <= count_lines open_line text
   <= Z.of_nat (length text) + (if open_line then 1 else 0))%Z.
Proof.
  revert text open_line. induction n as [|n IH]; intros text open_line Hn.
  - destruct text; [|cbn in Hn; lia]. rewrite count_lines_nil.
    destruct open_line; cbn; lia.
  - destruct text as [|c text]; [rewrite count_lines_nil; destruct open_line; cbn; lia|].
    rewrite orb_true_r. cbn [length] in Hn.
    destruct (decide (c = 13 /\ head text = Some 10)) as [[-> Hhd]|Hne].
    + destruct text as [|c' text']; [discriminate|]. cbn in Hhd. injection Hhd as ->.
      rewrite count_lines_crlf. cbn [length] in *.
      pose proof (IH text' false ltac:(lia)) as Ht.
      destruct (false || match text' with [] => false | _ :: _ => true end), open_line; lia.
    + rewrite count_lines_cons.
      2:{ destruct (decide (c = 13)); [right|left; assumption]. intros Hhd. apply Hne. tauto. }
      cbn [length]. destruct (is_linebreak c).
      * pose proof (IH text false ltac:(lia)) as Ht.
        destruct (false || match text with [] => false | _ :: _ => true end), open_line; lia.
      * pose proof (IH text true ltac:(lia)) as Ht. cbn [orb] in Ht.
        destruct open_line; lia.
Qed.

Section FileStatsFacts.

Context `{Unicode} {F S : Type} `{PyFloat F} (h : handler F S).

(** (X13) The statistics of a file: the number of lines is at most the number
    of characters, and zero only for an empty text. A path that does not
    exist gives three zeros after the one call to [exists()], without
    being read; a path that exists is read once and its size is what
    [stat()] says. *)
Theorem file_stats_counts (filepath : Path) (s : S) :
  exists st,
    outcome_of h (get_file_stats filepath) s = Ok st
    /\ (0 <= fs_lines st <= fs_chars st)%Z
    /\ (fs_lines st = 0 <-> fs_chars st = 0)%Z
    /\ match omap (exists_answer filepath) (trace_of h (get_file_stats filepath) s) with
       | [false] =>
           st = {| fs_size := 0; fs_lines := 0; fs_chars := 0 |}
           /\ length (trace_of h (get_file_stats filepath) s) = 1%nat
       | [true] =>
           In (Made (StatSize filepath) (fs_size st))
              (trace_of h (get_file_stats filepath) s)
           /\ exists content,
                In (Made (ReadText filepath) content)
                   (trace_of h (get_file_stats filepath) s)
                /\ fs_lines st = count_lines false content
                /\ fs_chars st = Z.of_nat (length content)
       | _ => False
       end.
Proof.
  unfold outcome_of, trace_of, get_file_stats, call, mbind, prog_mbind. cbn.
  repeat run_step.
  all: try (exfalso; match goal with n : ?x <> ?x |- _ => exact (n eq_refl) end).
  - eexists. split; [reflexivity|]. cbn [fs_lines fs_chars fs_size].
    match goal with |- context [count_lines false ?text] =>
      pose proof (count_lines_bounds (length text) text false (le_n _)) as Hb;
      destruct text as [|c text'] end.
    + rewrite count_lines_nil in *. cbn in *. split; [lia|]. split; [tauto|].
      split; [right; right; left; reflexivity|].
      eexists. split; [right; left; reflexivity|split; reflexivity].
    + rewrite orb_true_r in Hb. cbn [length] in *. split; [lia|]. split; [lia|].
      split; [right; right; left; reflexivity|].
      eexists. split; [right; left; reflexivity|split; reflexivity].
  - eexists. split; [reflexivity|]. cbn [fs_lines fs_chars fs_size length].
    split; [lia|]. split; [tauto|]. split; reflexivity.
Qed.

End FileStatsFacts.

(** ** How the runs compose *)

Section GoodRuns.

Context {F S : Type} (h : handler F S).

Lemma good_bind {A B} (Q1 : A -> Prop) (Q2 : B -> Prop)
    (p : prog F A) (k : A -> prog F B) (s : S) :
  good_run Q1 (run h p s) ->
  (forall a s', Q1 a -> good_run Q2 (run h (k a) s')) ->
  good_run Q2 (run h (prog_bind k p) s).
Proof.
  intros [Hw1 Hr1] Hk. rewrite run_bind.
  destruct (run h p s) as [[[a|e] s1] t1]; simpl in *.
  - destruct (Hk a s1 Hr1) as [Hw2 Hr2].
    destruct (run h (k a) s1) as [[r' s2] t2]. unfold good_run. simpl in *.
    split; [now rewrite existsb_app, Hw1, Hw2|].
    destruct r' as [b|e]; [exact Hr2|].
    rewrite omap_app. apply in_or_app. now right.
  - split; assumption.
Qed.

Lemma good_call {X} (ev : event F X) (s : S) :
  (forall x, is_write (Made ev x) = false) ->
  good_run (fun _ => True) (run h (call ev) s).
Proof.
  intros Hev. unfold call, good_run. cbn [run].
  destruct (answer h ev s) as [x s']. cbn [fst snd existsb].
  split; [now rewrite (Hev x)|exact I].
Qed.

Lemma good_ret {A} (Q : A -> Prop) (a : A) (s : S) : Q a -> good_run Q (run h (Ret a) s).
Proof. intros Ha. split; [reflexivity|exact Ha]. Qed.

Lemma good_for_collect {A B} (R : A -> B -> Prop) (body : A -> prog F B)
    (l : list A) (s : S) :
  (forall x s', good_run (R x) (run h (body x) s')) ->
  good_run (fun rs => Forall2 R l rs) (run h (for_collect l body) s).
Proof.
  intros Hbody. revert s. induction l as [|x l IH]; intros s; cbn [for_collect].
  - apply good_ret. constructor.
  - eapply good_bind; [apply Hbody|]. intros y s1 Hy.
    eapply good_bind; [apply IH|]. intros ys s2 Hys.
    apply good_ret. constructor; assumption.
Qed.

Lemma no_write_args (t : list (made F)) : existsb is_write t = false -> omap write_arg t = [].
Proof.
  induction t as [|[X ev x] t IH]; [reflexivity|]. cbn [existsb].
  intros Ht. apply orb_false_iff in Ht. destruct Ht as [Hm Ht].
  destruct ev; try discriminate; cbn; auto.
Qed.

Lemma written_once_bind {A} (Q : A -> Prop) (report_file : Path)
    (p : prog F A) (k : A -> prog F pystr) (s : S) :
  good_run Q (run h p s) ->
  (forall a s', Q a -> report_written_once report_file (run h (k a) s')) ->
  report_written_once report_file (run h (prog_bind k p) s).
Proof.
  intros [Hw1 Hr1] Hk. rewrite run_bind.
  destruct (run h p s) as [[[a|e] s1] t1]; cbn [fst snd] in *.
  - specialize (Hk a s1 Hr1). unfold report_written_once in *.
    destruct (run h (k a) s1) as [[[report|e] s2] t2]; cbn [fst snd] in *.
    + rewrite omap_app, (no_write_args t1 Hw1). exact Hk.
    + destruct Hk as [Hw2 He]. rewrite !omap_app, (no_write_args t1 Hw1), Hw2.
      split; [reflexivity|]. destruct He as [He|He]; [now left|right].
      apply in_or_app. now right.
  - split; [now apply no_write_args|]. now right.
Qed.

Lemma spawns_bind {A B} (l1 l2 : list (list pystr * Z))
    (p : prog F A) (k : A -> prog F B) (s : S) :
  omap spawn_args (trace_of h p s) `sublist_of` l1 ->
  (forall a s', omap spawn_args (trace_of h (k a) s') `sublist_of` l2) ->
  omap spawn_args (trace_of h (prog_bind k p) s) `sublist_of` l1 ++ l2.
Proof.
  unfold trace_of. intros Hp Hk. rewrite run_bind.
  destruct (run h p s) as [[[a|e] s1] t1]; cbn [snd] in *.
  - specialize (Hk a s1). destruct (run h (k a) s1) as [[r' s2] t2]. cbn [snd] in *.
    rewrite omap_app. now apply sublist_app.
  - now apply sublist_inserts_r.
Qed.

Lemma spawns_call {X} (ev : event F X) (s : S) :
  (forall x, spawn_args (Made ev x) = None) ->
  omap spawn_args (trace_of h (call ev) s) `sublist_of` [].
Proof.
  intros Hev. unfold trace_of, call. cbn [run].
  destruct (answer h ev s) as [x s']. cbn [snd].
  change (omap spawn_args [Made ev x])
    with (match spawn_args (Made ev x) with Some y => [y] | None => [] end).
  now rewrite (Hev x).
Qed.

Lemma spawns_for_collect {A B} (c : A -> list pystr * Z) (body : A -> prog F B)
    (l : list A) (s : S) :
  (forall x s', omap spawn_args (trace_of h (body x) s') `sublist_of` [c x]) ->
  omap spawn_args (trace_of h (for_collect l body) s) `sublist_of` List.map c l.
Proof.
  intros Hbody. revert s. induction l as [|x l IH]; intros s; cbn [for_collect List.map].
  - reflexivity.
  - apply (spawns_bind [c x] (List.map c l)); [apply Hbody|]. intros y s1.
    rewrite <- (app_nil_r (List.map c l)).
    apply spawns_bind; [apply IH|]. intros ys s2. reflexivity.
Qed.

End GoodRuns.

(** ** Benchmarking a file *)

Section BenchmarkFileFacts.

Context `{Unicode} {F S : Type} `{PyFloat F} (h : handler F S).
Context (self : MetaPromptBenchmark).

Lemma good_get_file_stats (filepath : Path) (s : S) :
  good_run (fun _ => True) (run h (get_file_stats filepath) s).
Proof.
  unfold good_run, get_file_stats, call, mbind, prog_mbind. cbn. repeat run_step.
  all: split; [reflexivity|exact I].
Qed.

Lemma good_run_optimization (input_file : Path) (mode goal domain : pystr) (s : S) :
  good_run (outcome_for (mode, goal, domain))
           (run h (run_optimization self input_file mode goal domain) s).
Proof.
  unfold good_run, outcome_for. run_cases.
  all: split; [reflexivity|].
  all: try (left; reflexivity).
  all: unfold failure_outcome, reportable; cbn [fst snd]; split_and!; lookup_now; reflexivity.
Qed.

Lemma good_benchmark_file (input_file : Path) (s : S) :
  good_run (benchmarked input_file) (run h (benchmark_file self input_file) s).
Proof.
  unfold benchmark_file, mbind, prog_mbind.
  eapply good_bind; [apply good_call; reflexivity|]. intros _ s1 _.
  eapply good_bind; [apply good_get_file_stats|]. intros stats s2 _.
  eapply good_bind.
  - apply (good_for_collect h outcome_for). intros [[mode goal] domain] s3.
    eapply good_bind; [apply good_call; reflexivity|]. intros _ s4 _.
    apply good_run_optimization.
  - intros opts s3 Hopts. apply good_ret. split; [reflexivity|exact Hopts].
Qed.

Lemma spawns_get_file_stats (filepath : Path) (s : S) :
  omap spawn_args (trace_of h (get_file_stats filepath) s) `sublist_of` [].
Proof.
  unfold trace_of, get_file_stats, call, mbind, prog_mbind. cbn. repeat run_step.
  all: reflexivity.
Qed.

Lemma spawns_run_optimization (input_file : Path) (mode goal domain : pystr) (s : S) :
  omap spawn_args (trace_of h (run_optimization self input_file mode goal domain) s)
  `sublist_of` [ (command_of self input_file (output_file_of self input_file)
                             mode goal domain, 30%Z) ].
Proof.
  run_cases.
  all: first [ reflexivity | apply sublist_nil_l ].
Qed.

Lemma spawns_benchmark_file (input_file : Path) (s : S) :
  omap spawn_args (trace_of h (benchmark_file self input_file) s)
  `sublist_of` List.map (fun cfg : pystr * pystr * pystr =>
                           (command_of self input_file (output_file_of self input_file)
                                       (fst (fst cfg)) (snd (fst cfg)) (snd cfg), 30%Z))
                        configurations.
Proof.
  unfold benchmark_file, mbind, prog_mbind.
  match goal with |- _ `sublist_of` ?l => set (cmds := l) end.
  apply (spawns_bind h [] cmds); [apply spawns_call; reflexivity|]. intros _ s1.
  apply (spawns_bind h [] cmds); [apply spawns_get_file_stats|]. intros stats s2.
  rewrite <- (app_nil_r cmds).
  apply (spawns_bind h cmds []); [|intros; reflexivity].
  subst cmds.
  apply (spawns_for_collect h
           (fun cfg : pystr * pystr * pystr =>
              (command_of self input_file (output_file_of self input_file)
                          (fst (fst cfg)) (snd (fst cfg)) (snd cfg), 30%Z))).
  intros [[mode goal] domain] s3. cbn [fst snd].
  match goal with |- _ `sublist_of` ?l => apply (spawns_bind h [] l) end;
    [apply spawns_call; reflexivity|]. intros _ s4.
  apply spawns_run_optimization.
Qed.

(** (X14) Benchmarking a file writes no file and runs the compiler at most once
    for each of the four configurations, in their order, on that file. If
    it returns, the result names the file and holds one outcome for each
    configuration, in their order, each with the keys the report reads;
    if it raises, it raises what [subprocess.run] raised. *)
Theorem benchmark_file_outcomes (input_file : Path) (s : S) :
  let t := trace_of h (benchmark_file self input_file) s in
  existsb is_write t = false
  /\ omap spawn_args t
     `sublist_of` List.map (fun cfg : pystr * pystr * pystr =>
                              (command_of self input_file (output_file_of self input_file)
                                          (fst (fst cfg)) (snd (fst cfg)) (snd cfg), 30%Z))
                           configurations
  /\ match outcome_of h (benchmark_file self input_file) s with
     | Ok res =>
         file res = path_str input_file
         /\ Forall2 outcome_for configurations (optimizations res)
     | Err e => In (RunRaised e) (omap spawn_answer t)
     end.
Proof.
  cbv zeta. destruct (good_benchmark_file input_file s) as [Hw Hr].
  split; [exact Hw|]. split; [apply spawns_benchmark_file|exact Hr].
Qed.

End BenchmarkFileFacts.

(** ** The report *)

Section ReportFacts.

Context `{Unicode} {F S : Type} `{PyFloat F} (h : handler F S).

Lemma reportable_wf (d : gmap string (pyval F)) : reportable d = true -> outcome_wf d = true.
Proof.
  unfold reportable, outcome_wf. intros Hd.
  destruct (d !! "success") as [[[]| | |]|]; try discriminate; [|reflexivity].
  destruct (d !! "execution_time") as [[]|]; try discriminate.
  destruct (d !! "mode") as [[]|]; try discriminate.
  destruct (d !! "goal") as [[]|]; try discriminate.
  destruct (d !! "domain") as [[]|]; try discriminate.
  exact Hd.
Qed.

Lemma row_reduction_total (o n : Z) : exists r, row_reduction o n = Ok r.
Proof.
  unfold row_reduction. destruct (Z.ltb_spec 0 o) as [Ho|_]; [|eauto].
  rewrite (reduction_percent_positive o n Ho). eauto.
Qed.

Lemma detail_row_total (stats : FileStats) (d : gmap string (pyval F)) :
  reportable d = true -> exists row, detail_row stats d = Ok row.
Proof.
  unfold reportable, detail_row, getitem. intros Hd.
  destruct (d !! "success") as [[ok| | |]|]; try discriminate.
  destruct (d !! "execution_time") as [[t| | |]|]; try discriminate.
  destruct (d !! "mode") as [[| |mode|]|]; try discriminate.
  destruct (d !! "goal") as [[| |goal|]|]; try discriminate.
  destruct (d !! "domain") as [[| |domain|]|]; try discriminate.
  cbn. destruct (d !! "output_stats") as [[| | |st]|] eqn:Hst; try discriminate.
  - destruct ok; cbn.
    + rewrite ?bool_decide_eq_true_2 by eauto. cbn.
      destruct (row_reduction_total (fs_chars stats) (fs_chars st)) as [r ->]. cbn. eauto.
    + eauto.
  - rewrite ?bool_decide_eq_false_2 by (intros [? ?]; discriminate).
    rewrite ?andb_false_r. cbn. eauto.
Qed.

Lemma map_result_total {A B} (P : A -> Prop) (f : A -> result B) (l : list A) :
  (forall x, P x -> exists y, f x = Ok y) ->
  Forall P l -> exists ys, map_result f l = Ok ys.
Proof.
  intros Hf Hl. induction Hl as [|x l Hx Hl [ys IH]]; cbn; [eauto|].
  destruct (Hf x Hx) as [y ->]. cbn. rewrite IH. cbn. eauto.
Qed.

Lemma detail_lines_total (res : @file_result F) :
  Forall (fun d => reportable d = true) (optimizations res) ->
  exists ls, detail_lines res = Ok ls.
Proof.
  intros Hres. unfold detail_lines.
  destruct (map_result_total _ (detail_row (original_stats res)) _
              (detail_row_total (original_stats res)) Hres) as [rows ->].
  cbn. eauto.
Qed.

Lemma report_parts_total (results : list (@file_result F)) :
  Forall (fun res => Forall (fun d => reportable d = true) (optimizations res)) results ->
  exists sm details,
    summarize results = Ok sm /\ map_result detail_lines results = Ok details.
Proof.
  intros Hres.
  assert (Hwf : Forall (fun res : @file_result F =>
                          forallb outcome_wf (optimizations res) = true) results).
  { eapply Forall_impl; [exact Hres|]. intros res Hopts. cbn beta in Hopts.
    apply forallb_forall. intros d Hd. apply reportable_wf.
    rewrite List.Forall_forall in Hopts. now apply Hopts. }
  rewrite (summarize_wf results Hwf).
  destruct (map_result_total _ detail_lines results detail_lines_total Hres)
    as [details Hdetails].
  eauto.
Qed.

Lemma good_generate_report (results : list (@file_result F)) (s : S) :
  Forall (fun res => Forall (fun d => reportable d = true) (optimizations res)) results ->
  good_run (fun _ => True) (run h (generate_report results) s).
Proof.
  intros Hres. destruct (report_parts_total results Hres) as (sm & details & Hsm & Hdetails).
  unfold generate_report, call, mbind, prog_mbind. rewrite Hsm, Hdetails. cbn.
  destruct (answer h (Strftime (lit "%Y-%m-%d %H:%M:%S")) s) as [now s1]. cbn.
  split; [reflexivity|exact I].
Qed.

(** (X15) On results whose outcomes have the keys and the types of values that
    [run_optimization] gives them, the report is generated without a
    [KeyError], a [TypeError] or a division by zero, whatever the sizes
    and however many files and outcomes there are; all it asks of the
    environment is the time of day, once. *)
Theorem report_never_fails (results : list (@file_result F)) (s : S) :
  Forall (fun res => Forall (fun d => reportable d = true) (optimizations res)) results ->
  exists report,
    run h (generate_report results) s
    = (Ok report, snd (answer h (Strftime (lit "%Y-%m-%d %H:%M:%S")) s),
       [Made (Strftime (lit "%Y-%m-%d %H:%M:%S"))
             (fst (answer h (Strftime (lit "%Y-%m-%d %H:%M:%S")) s))]).
Proof.
  intros Hres. destruct (report_parts_total results Hres) as (sm & details & Hsm & Hdetails).
  unfold generate_report, call, mbind, prog_mbind. rewrite Hsm, Hdetails. cbn.
  destruct (answer h (Strftime (lit "%Y-%m-%d %H:%M:%S")) s) as [now s1]. cbn.
  eexists. reflexivity.
Qed.

Context (self : MetaPromptBenchmark).

(** (X16) When the compiler exits with 0 and its output file is not there
    afterwards, the row of the run in the report has the mark of a
    success, the time between the two readings of the clock, [N/A] as its
    size reduction and [FAILED] as its status. *)
Theorem exit_zero_without_output_row (input_file : Path) (mode goal domain : pystr) (s : S)
    (stats : FileStats) (stdout stderr : pystr) :
  In (Completed 0 stdout stderr)
     (omap spawn_answer (trace_of h (run_optimization self input_file mode goal domain) s)) ->
  ~ In true (omap (exists_answer (output_file_of self input_file))
                  (after_spawn
                     (trace_of h (run_optimization self input_file mode goal domain) s))) ->
  exists d t0 t1,
    outcome_of h (run_optimization self input_file mode goal domain) s = Ok d
    /\ omap clock_reading (trace_of h (run_optimization self input_file mode goal domain) s)
       = [t0; t1]
    /\ detail_row stats d
       = Ok (lit "| " ++ mode ++ lit " | " ++ goal ++ lit " | " ++ domain ++ lit " | "
             ++ [9989] ++ lit " | " ++ f_format 3 (f_sub t1 t0) ++ lit " | "
             ++ lit "N/A" ++ lit " | " ++ lit "FAILED" ++ lit " |").
Proof.
  run_cases; intros Hin Hex; cbn in Hin, Hex.
  all: try (exfalso; intuition discriminate).
  all: destruct Hin as [Hin|[]]; simplify_eq.
  all: try (exfalso; apply Hex; rewrite ?decide_True by reflexivity; left; reflexivity).
  all: do 3 eexists; split; [reflexivity|]; split; [reflexivity|].
  all: unfold detail_row, getitem; lookup_now; cbn; lookup_now; reflexivity.
Qed.

End ReportFacts.

(** ** The whole benchmark *)

Section FullBenchmarkFacts.

Context `{Unicode} {F S : Type} `{PyFloat F} (h : handler F S).

Lemma benchmarked_reportable (input_file : Path) (res : @file_result F) :
  benchmarked input_file res ->
  Forall (fun d => reportable d = true) (optimizations res).
Proof.
  intros [_ Hopts]. induction Hopts as [|cfg d cfgs ds [Hd _] _ IH]; constructor; assumption.
Qed.

Lemma benchmarked_four (input_file : Path) (res : @file_result F) :
  benchmarked input_file res -> length (optimizations res) = 4%nat.
Proof. intros [_ Hopts]. apply Forall2_length in Hopts. now rewrite <- Hopts. Qed.

Lemma good_benchmarks (self : MetaPromptBenchmark) (files : list Path) (s : S) :
  good_run (fun results => Forall2 benchmarked files results)
           (run h (for_collect files (benchmark_file self)) s).
Proof.
  apply (good_for_collect h (fun f res => benchmarked f res)).
  intros f s'. apply good_benchmark_file.
Qed.

(** (X17) The results of benchmarking any files, one after the other, can be
    summarized: the summary counts the files, and its successful
    optimizations are at most four for each file, the [total_files * 4]
    that the rate of success divides by. *)
Theorem success_count_bounded (self : MetaPromptBenchmark) (files : list Path) (s : S)
    (results : list (@file_result F)) :
  outcome_of h (for_collect files (benchmark_file self)) s = Ok results ->
  exists sm,
    summarize results = Ok sm
    /\ total_files sm = Z.of_nat (length files)
    /\ (0 <= successes sm <= 4 * total_files sm)%Z.
Proof.
  intros Hrun. destruct (good_benchmarks self files s) as [_ Hgood].
  unfold outcome_of in Hrun. rewrite Hrun in Hgood.
  assert (Hlen : length results = length files)
    by (symmetry; exact (Forall2_length _ _ _ Hgood)).
  assert (Hfour : Forall (fun res : @file_result F => length (optimizations res) = 4%nat)
                         results).
  { clear -Hgood. induction Hgood as [|f res fs ress Hres _ IH]; constructor;
      [exact (benchmarked_four f res Hres)|exact IH]. }
  assert (Hwf : Forall (fun res : @file_result F =>
                          forallb outcome_wf (optimizations res) = true) results).
  { clear -Hgood. induction Hgood as [|f res fs ress Hres _ IH]; constructor; [|exact IH].
    apply forallb_forall. intros d Hd. apply reportable_wf.
    pose proof (benchmarked_reportable f res Hres) as Hall.
    rewrite List.Forall_forall in Hall. now apply Hall. }
  rewrite (summarize_wf results Hwf). eexists. split; [reflexivity|].
  cbn [total_files successes]. split; [now rewrite Hlen|].
  pose proof (outcomes_of_length results Hfour) as Hout.
  pose proof (filter_length_le (fun p : FileStats * gmap string (pyval F) => succeeded (snd p))
                               (outcomes_of results)) as Hle.
  unfold successful_outcomes. lia.
Qed.

Lemma run_full_benchmark_writes (self : MetaPromptBenchmark) (s : S) :
  report_written_once (path_join (demo_dir self) (lit "benchmark_report.md"))
                      (run h (run_full_benchmark self) s).
Proof.
  unfold run_full_benchmark, mbind, prog_mbind. cbv zeta.
  eapply written_once_bind; [apply good_call; reflexivity|]. intros _ s1 _.
  eapply written_once_bind; [apply good_call; reflexivity|]. intros _ s2 _.
  eapply written_once_bind; [apply good_call; reflexivity|]. intros ex s3 _.
  destruct ex; cbn [negb]; [|split; [reflexivity|left; eauto]].
  eapply written_once_bind; [apply good_call; reflexivity|]. intros example_files s4 _.
  destruct (bool_decide (example_files = [])); [split; [reflexivity|left; eauto]|].
  eapply written_once_bind; [apply good_call; reflexivity|]. intros _ s5 _.
  eapply written_once_bind; [apply good_benchmarks|].
  intros results s6 Hresults.
  eapply written_once_bind.
  { apply good_generate_report. clear -Hresults.
    induction Hresults as [|f res fs ress Hres _ IH]; constructor; [|exact IH].
    exact (benchmarked_reportable f res Hres). }
  intros report s7 _. unfold call, report_written_once. cbn [prog_bind run].
  destruct (answer h (WriteText _ report) s7) as [[] s8].
  destruct (answer h (Print _) s8) as [[] s9]. reflexivity.
Qed.

(** (X18) The full benchmark writes one file at most, and it does so last:
    when it returns the report, it has written exactly that text to
    [benchmark_report.md] in the directory of the script and nothing
    else; when it raises, it has written nothing, and what it raises is
    the [FileNotFoundError] of a missing or empty examples directory or
    what [subprocess.run] raised. No outcome of a run can make the report
    fail. *)
Theorem full_benchmark_writes_once (self : MetaPromptBenchmark) (s : S) :
  let t := trace_of h (run_full_benchmark self) s in
  match outcome_of h (run_full_benchmark self) s with
  | Ok report =>
      omap write_arg t
      = [(path_join (demo_dir self) (lit "benchmark_report.md"), report)]
  | Err e =>
      omap write_arg t = []
      /\ ((exists msg, e = FileNotFoundError msg)
          \/ In (RunRaised e) (omap spawn_answer t))
  end.
Proof. exact (run_full_benchmark_writes self s). Qed.

Lemma print_summary_body (body rest : list pystr) (s : S) :
  Forall (fun l => startswith l (lit "##") = true ->
                   startswith l (lit "## Executive Summary") = true) body ->
  match rest with
  | [] => True
  | l :: _ => startswith l (lit "##") = true
              /\ startswith l (lit "## Executive Summary") = false
  end ->
  exists s',
    run h (print_summary true (body ++ rest)) s
    = (Ok tt, s',
       List.map (fun l => Made (Print l) tt)
         (List.filter (fun l => strip_nonempty l
                                && negb (startswith l (lit "## Executive Summary"))) body)).
Proof.
  intros Hbody Hrest. revert s. induction Hbody as [|l body Hl _ IH]; intros s.
  - cbn [app List.filter List.map]. destruct rest as [|l rest]; [cbn; eauto|].
    destruct Hrest as [Hh Hs]. cbn [print_summary]. rewrite Hs, Hh. cbn. eauto.
  - cbn [app print_summary List.filter].
    destruct (startswith l (lit "## Executive Summary")) eqn:Hs.
    + rewrite andb_false_r. apply IH.
    + destruct (startswith l (lit "##")) eqn:Hh; [specialize (Hl eq_refl); discriminate|].
      cbn [andb negb]. rewrite andb_true_r. destruct (strip_nonempty l).
      * unfold call, mbind, prog_mbind. cbn [prog_bind run].
        destruct (answer h (Print l) s) as [[] s1].
        destruct (IH s1) as [s2 ->]. cbn. eauto.
      * apply IH.
Qed.

(** (X19) The loop at the end of [main] prints a section of the report.
    Take lines with a first line [heading] that starts with
    [## Executive Summary], then lines [body] of which none starts with
    [##] unless it starts with [## Executive Summary] again, then either
    nothing or a line that starts with [##] but not with
    [## Executive Summary]. The loop prints the lines of [body] that are
    not white space only and do not start with [## Executive Summary], in
    their order, and nothing else: a second such heading does not end the
    section, it is skipped. *)
Theorem print_summary_prints_section (pre body rest : list pystr) (heading : pystr) (s : S) :
  Forall (fun l => startswith l (lit "## Executive Summary") = false) pre ->
  startswith heading (lit "## Executive Summary") = true ->
  Forall (fun l => startswith l (lit "##") = true ->
                   startswith l (lit "## Executive Summary") = true) body ->
  match rest with
  | [] => True
  | l :: _ => startswith l (lit "##") = true
              /\ startswith l (lit "## Executive Summary") = false
  end ->
  outcome_of h (print_summary false (pre ++ heading :: body ++ rest)) s = Ok tt
  /\ trace_of h (print_summary false (pre ++ heading :: body ++ rest)) s
     = List.map (fun l => Made (Print l) tt)
         (List.filter (fun l => strip_nonempty l
                                && negb (startswith l (lit "## Executive Summary"))) body).
Proof.
  intros Hpre Hheading Hbody Hrest. unfold outcome_of, trace_of.
  induction Hpre as [|l pre Hl _ IH].
  - cbn [app print_summary]. rewrite Hheading.
    destruct (print_summary_body body rest s Hbody Hrest) as [s' ->]. split; reflexivity.
  - cbn [app print_summary]. rewrite Hl, andb_false_r. cbn [andb]. exact IH.
Qed.

Lemma print_summary_quiet (lines : list pystr) (in_summary : bool) (s : S) :
  exists s' t,
    run h (print_summary in_summary lines) s = (Ok tt, s', t)
    /\ omap write_arg t = [].
Proof.
  revert in_summary s. induction lines as [|line lines IH]; intros in_summary s.
  - cbn. eauto.
  - cbn [print_summary].
    destruct (startswith line (lit "## Executive Summary")); [apply IH|].
    destruct (startswith line (lit "##") && in_summary); [cbn; eauto|].
    destruct (in_summary && strip_nonempty line); [|apply IH].
    unfold call, mbind, prog_mbind. cbn [prog_bind run].
    destruct (answer h (Print line) s) as [[] s1].
    destruct (IH in_summary s1) as (s2 & t & -> & Hw). cbn. eauto.
Qed.

Lemma last_printed_snoc (t : list (made F)) (line : pystr) :
  last (omap printed (t ++ [Made (Print line) tt])) = Some line.
Proof. rewrite omap_app. cbn. apply last_snoc. Qed.

(** (X20) In an environment where [print] and the calls on the file
    system do not raise, [main] always returns, and what it returns tells
    how constructing the benchmark and running it ended. If they returned
    the report, [main] returns 0 and that report is the one text written,
    to [benchmark_report.md] beside the script. If one of them raised an
    exception, [main] returns 1, nothing was written, and the last line
    printed is the failure line with the message of that exception. *)
Theorem main_exit_status (script_file : Path) (s : S) :
  let t := trace_of h (main script_file) s in
  let report_file := path_join (path_parent script_file) (lit "benchmark_report.md") in
  match benchmark_result h script_file s with
  | Ok report =>
      outcome_of h (main script_file) s = Ok 0%Z
      /\ omap write_arg t = [(report_file, report)]
  | Err e =>
      outcome_of h (main script_file) s = Ok 1%Z
      /\ omap write_arg t = []
      /\ last (omap printed t) = Some ([10060] ++ lit " Benchmark failed: " ++ exn_str e)
  end.
Proof.
  cbv zeta. unfold benchmark_result, outcome_of, trace_of, main, mbind, prog_mbind.
  rewrite run_try_except, !run_bind.
  unfold __init__, call, mbind, prog_mbind. cbv zeta. cbn [prog_bind run].
  match goal with |- context [answer h ?ev s] => destruct (answer h ev s) as [[] s1] end;
    cbn [negb run fst snd].
  - rewrite run_bind.
    pose proof (run_full_benchmark_writes
                  {| demo_dir := path_parent script_file;
                     project_root := path_parent (path_parent script_file);
                     build_dir := path_join (path_parent (path_parent script_file)) (lit "build");
                     cql_executable :=
                       path_join (path_join (path_parent (path_parent script_file)) (lit "build"))
                                 (lit "cql") |} s1) as Hrun.
    unfold report_written_once in Hrun. cbn [demo_dir] in Hrun.
    match goal with |- context [run h (run_full_benchmark ?b) s1] =>
      destruct (run h (run_full_benchmark b) s1) as [[[report|e] s2] t2] end;
      cbn [fst snd] in Hrun |- *.
    + cbn [prog_bind run].
      match goal with |- context [answer h ?ev s2] => destruct (answer h ev s2) as [[] s3] end.
      match goal with |- context [answer h ?ev s3] => destruct (answer h ev s3) as [[] s4] end.
      match goal with |- context [answer h ?ev s4] => destruct (answer h ev s4) as [[] s5] end.
      rewrite run_bind.
      destruct (print_summary_quiet (split_on ch_newline report) false s5)
        as (s6 & t & -> & Hw).
      cbn [run fst snd app]. split; [reflexivity|].
      rewrite app_nil_r.
      change (?m :: t2 ++ ?a :: ?b :: ?c :: t) with ((m :: t2) ++ [a; b; c] ++ t).
      rewrite !omap_app, Hw. exact (eq_trans (app_nil_r _) Hrun).
    + destruct Hrun as [Hw _]. cbn [prog_bind run].
      match goal with |- context [answer h ?ev s2] => destruct (answer h ev s2) as [[] s3] end.
      cbn [fst snd].
      split; [reflexivity|]. split.
      * change (?m :: t2 ++ ?l) with ((m :: t2) ++ l).
        rewrite omap_app. exact (eq_trans (app_nil_r _) Hw).
      * change (?m :: t2 ++ ?l) with ((m :: t2) ++ l). apply last_printed_snoc.
  - match goal with |- context [answer h ?ev s1] => destruct (answer h ev s1) as [[] s2] end.
    cbn [fst snd].
    split; [reflexivity|]. split; reflexivity.
Qed.

End FullBenchmarkFacts.

(** ** The properties in the simulated environment *)

Lemma timeout_outcome_witness :
  In (RunRaised TimeoutExpired)
     (omap spawn_answer (trace_of (sim compiler_hangs) (balanced_run abcd_llm) world_two_examples))
  /\ exists d,
       outcome_of (sim compiler_hangs) (balanced_run abcd_llm) world_two_examples = Ok d
       /\ d !! "success" = Some (VBool false)
       /\ d !! "error" = Some (VStr (lit "Timeout"))
       /\ d !! "execution_time" = Some (VNum (PFloat (f_of_Z 30))).
Proof.
  split; [vm_compute; left; reflexivity|].
  unfold balanced_run.
  apply (timeout_outcome (sim compiler_hangs) the_benchmark abcd_llm (lit "LOCAL_ONLY")
           (lit "BALANCED") (lit "software") world_two_examples).
  vm_compute. left. reflexivity.
Defined.



Lemma output_path_from_stem_witness :
  let cmd1 := command_of the_benchmark abcd_llm (output_file_of the_benchmark abcd_llm)
                (lit "LOCAL_ONLY") (lit "BALANCED") (lit "software") in
  let cmd2 := command_of the_benchmark abcd_llm (output_file_of the_benchmark abcd_llm)
                (lit "LOCAL_ONLY") (lit "REDUCE_TOKENS") (lit "software") in
  cmd1 <> cmd2
  /\ cmd1 !! 3%nat = cmd2 !! 3%nat
  /\ cmd1 !! 3%nat = Some (lit "/repo/demo/temp/optimized_abcd.txt").
Proof.
  cbv zeta. split; [vm_compute; discriminate|].
  refine (output_path_from_stem (sim compiler_halves) the_benchmark abcd_llm abcd_llm
            (lit "LOCAL_ONLY") (lit "BALANCED") (lit "software")
            (lit "LOCAL_ONLY") (lit "REDUCE_TOKENS") (lit "software")
            world_two_examples world_two_examples _ _ 30 30 eq_refl _ _);
    vm_compute; left; reflexivity.
Defined.

Lemma outcome_shapes_witness :
  let d := <["output_stats" := VStats {| fs_size := 2; fs_lines := 1; fs_chars := 2 |}]>
             (completed_metrics 0 (f_sub (inject_Z 101) (inject_Z 100)) (lit "done") []
                (lit "LOCAL_ONLY") (lit "BALANCED") (lit "software")) in
  let t := trace_of (sim compiler_halves) (balanced_run abcd_llm) world_two_examples in
  outcome_of (sim compiler_halves) (balanced_run abcd_llm) world_two_examples = Ok d
  /\ outcome_shape d
  /\ {[ "success"; "execution_time"; "mode"; "goal"; "domain" ]} ⊆ dom d
  /\ ("stdout" ∈ dom d <-> "error" ∉ dom d)
  /\ ("stderr" ∈ dom d <-> "error" ∉ dom d)
  /\ ((exists msg,
         outcome_of (sim compiler_halves)
           (_validate_parameters abcd_llm (lit "LOCAL_ONLY") (lit "BALANCED") (lit "software"))
           world_two_examples = Err (ValueError msg)
         /\ omap spawn_answer t = []
         /\ d = failure_outcome msg (f_of_Z 0) (lit "LOCAL_ONLY") (lit "BALANCED")
                  (lit "software")
         /\ dom d = failure_keys)
      \/ (omap spawn_answer t = [RunRaised TimeoutExpired]
          /\ d = failure_outcome (lit "Timeout") (f_of_Z 30) (lit "LOCAL_ONLY")
                   (lit "BALANCED") (lit "software")
          /\ dom d = failure_keys)
      \/ (exists returncode stdout stderr t0 t1,
            omap spawn_answer t = [Completed returncode stdout stderr]
            /\ omap clock_reading t = [t0; t1]
            /\ ((d = completed_metrics returncode (f_sub t1 t0) stdout stderr
                       (lit "LOCAL_ONLY") (lit "BALANCED") (lit "software")
                 /\ dom d = completed_keys
                 /\ ~ (returncode = 0%Z
                       /\ In true (omap (exists_answer (output_file_of the_benchmark abcd_llm))
                                     (after_spawn t))))
                \/ (exists st,
                      returncode = 0%Z
                      /\ In true (omap (exists_answer (output_file_of the_benchmark abcd_llm))
                                    (after_spawn t))
                      /\ d = <["output_stats" := VStats st]>
                               (completed_metrics returncode (f_sub t1 t0) stdout stderr
                                  (lit "LOCAL_ONLY") (lit "BALANCED") (lit "software"))
                      /\ dom d = completed_keys ∪ {[ "output_stats" ]})))).
Proof.
  cbv zeta.
  assert (Hd : outcome_of (sim compiler_halves) (balanced_run abcd_llm) world_two_examples
               = Ok (<["output_stats" :=
                         VStats {| fs_size := 2; fs_lines := 1; fs_chars := 2 |}]>
                       (completed_metrics 0 (f_sub (inject_Z 101) (inject_Z 100)) (lit "done")
                          [] (lit "LOCAL_ONLY") (lit "BALANCED") (lit "software"))))
    by reflexivity.
  split; [exact Hd|]. unfold balanced_run in *.
  exact (proj1 (outcome_shapes (sim compiler_halves) the_benchmark abcd_llm world_two_examples)
           (lit "LOCAL_ONLY") (lit "BALANCED") (lit "software") _ Hd).
Defined.

(** (C8, as stated) The outcomes synthesized for a timeout and for a
    missing input file have no [stdout] and no [stderr]; and the record of
    a run that left an output file is not the record that was created:
    [output_stats] was stored in it afterwards. *)
Lemma outcome_records_sparse_and_updated :
  let d1 := failure_outcome (lit "Timeout") (f_of_Z 30) (lit "LOCAL_ONLY")
              (lit "BALANCED") (lit "software") in
  let d2 := failure_outcome (lit "Input file does not exist: " ++ path_str missing_llm)
              (f_of_Z 0) (lit "LOCAL_ONLY") (lit "BALANCED") (lit "software") in
  let created := completed_metrics 0 (f_sub (inject_Z 101) (inject_Z 100)) (lit "done") []
                   (lit "LOCAL_ONLY") (lit "BALANCED") (lit "software") in
  let returned := <["output_stats" :=
                      VStats {| fs_size := 2; fs_lines := 1; fs_chars := 2 |}]> created in
  outcome_of (sim compiler_hangs) (balanced_run abcd_llm) world_two_examples = Ok d1
  /\ outcome_of (sim compiler_halves) (balanced_run missing_llm) world_two_examples = Ok d2
  /\ d1 !! "stdout" = None /\ d1 !! "stderr" = None
  /\ d2 !! "stdout" = None /\ d2 !! "stderr" = None
  /\ ~ declared_shape d1 /\ ~ declared_shape d2
  /\ outcome_of (sim compiler_halves) (balanced_run abcd_llm) world_two_examples = Ok returned
  /\ created !! "output_stats" = None
  /\ returned !! "output_stats"
     = Some (VStats {| fs_size := 2; fs_lines := 1; fs_chars := 2 |})
  /\ returned <> created.
Proof.
  cbv zeta. split; [reflexivity|]. split; [reflexivity|].
  unfold failure_outcome.
  repeat (split; [lookup_now; reflexivity|]).
  split; [|split]; [intros Hshape..|].
  1-2: assert (Hin : "stdout" ∈ dom (<["success":=VBool false]> _))
    by (apply Hshape; set_solver).
  1-2: apply elem_of_dom in Hin as [v Hv]; revert Hv; lookup_now; discriminate.
  split; [reflexivity|]. unfold completed_metrics.
  split; [lookup_now; reflexivity|]. split; [lookup_now; reflexivity|].
  intros Heq.
  assert (Hl : (<["output_stats" := VStats {| fs_size := 2; fs_lines := 1; fs_chars := 2 |}]>
                  (completed_metrics 0 (f_sub (inject_Z 101) (inject_Z 100)) (lit "done") []
                     (lit "LOCAL_ONLY") (lit "BALANCED") (lit "software")) : gmap string (pyval Q))
               !! "output_stats" = None).
  { unfold completed_metrics. rewrite Heq. lookup_now. reflexivity. }
  revert Hl. lookup_now. discriminate.
Qed.

Lemma no_examples_aborts_witness :
  let examples_dir := path_join (path_parent script_file) (lit "examples") in
  let t := trace_of (sim compiler_halves) (main script_file) world_no_examples in
  head (omap (glob_answer examples_dir (lit "*.llm")) t) = Some []
  /\ outcome_of (sim compiler_halves) (main script_file) world_no_examples = Ok 1%Z
  /\ existsb is_write t = false
  /\ existsb is_spawn t = false
  /\ exists msg,
       (msg = lit "Examples directory not found: " ++ path_str examples_dir
        \/ msg = lit "No .llm files found in " ++ path_str examples_dir)
       /\ last (omap printed t) = Some ([10060] ++ lit " Benchmark failed: " ++ msg).
Proof.
  cbv zeta. split; [vm_compute; reflexivity|].
  apply (no_examples_aborts (sim compiler_halves) script_file world_no_examples).
  right. vm_compute. reflexivity.
Defined.

Lemma summary_means_witness :
  Forall (fun res => forallb outcome_wf (optimizations res) = true) sample_results
  /\ exists s,
       summarize sample_results = Ok s
       /\ total_files s = Z.of_nat (length sample_results)
       /\ successes s = Z.of_nat (length (successful_outcomes sample_results))
       /\ avg_execution_time s
          = PFloat (f_div (to_float (total_time sample_results))
                          (f_of_Z (Z.max (successes s) 1)))
       /\ avg_size_reduction s
          = guarded_mean (omap counted_reduction (outcomes_of sample_results))
       /\ success_rate s
          = PFloat (f_mul (f_div (f_of_Z (successes s))
                                 (f_of_Z (Z.max (total_files s * 4) 1)))
                          (f_of_Z 100))
       /\ (Forall (fun res => length (optimizations res) = 4%nat) sample_results ->
           (total_files s * 4)%Z = Z.of_nat (length (outcomes_of sample_results))).
Proof.
  assert (Hwf : Forall (fun res => forallb outcome_wf (optimizations res) = true)
                  sample_results)
    by (repeat constructor).
  split; [exact Hwf | exact (summary_means sample_results Hwf)].
Defined.

(** (C7, as stated) With an empty example and one of four characters, both
    halved by the compiler, the mean size reduction of the summary is 50:
    the four outcomes of the empty file have output statistics and are left
    out of it. Over all outcomes with output statistics the mean is 25. *)
Lemma mean_skips_empty_originals :
  exists (results : list (@file_result Q)) s x y,
    outcome_of (sim compiler_halves)
      (for_collect [empty_llm; abcd_llm] (benchmark_file the_benchmark))
      world_two_examples = Ok results
    /\ summarize results = Ok s
    /\ avg_size_reduction s = PFloat x
    /\ spec_avg_size_reduction results = PFloat y
    /\ (x == 50)%Q /\ (y == 25)%Q /\ ~ (x == y)%Q.
Proof.
  do 4 eexists.
  split; [vm_compute; reflexivity|].
  split; [vm_compute; reflexivity|].
  split; [vm_compute; reflexivity|].
  split; [vm_compute; reflexivity|].
  split; [vm_compute; reflexivity|].
  split; [vm_compute; reflexivity|].
  vm_compute. discriminate.
Qed.

Lemma sanitize_ascii_input_safe_witness :
  forallb is_ascii (lit "../../etc/passwd") = true
  /\ spec_safe_name (_sanitize_filename (lit "../../etc/passwd")).
Proof.
  split; [reflexivity|].
  apply (sanitize_ascii_input_safe (lit "../../etc/passwd")). reflexivity.
Defined.

Lemma validation_reports_first_failure_witness :
  (outcome_of (sim compiler_halves)
     (_validate_parameters missing_llm (lit "TURBO") (lit "NONE") []) world_two_examples
   = Err (ValueError (lit "Input file does not exist: " ++ path_str missing_llm))
   /\ length (trace_of (sim compiler_halves)
                (_validate_parameters missing_llm (lit "TURBO") (lit "NONE") [])
                world_two_examples) = 1%nat)
  /\ outcome_of (sim compiler_halves)
       (_validate_parameters abcd_llm (lit "TURBO") (lit "NONE") []) world_two_examples
     = Err (ValueError (lit "Invalid mode '" ++ lit "TURBO" ++ lit "'. Must be one of: "
                        ++ lit "LOCAL_ONLY, CACHED_LLM, FULL_LLM, ASYNC_LLM")).
Proof.
  split.
  - apply (proj1 (validation_reports_first_failure (sim compiler_halves) missing_llm
                    (lit "TURBO") (lit "NONE") [] world_two_examples)).
    reflexivity.
  - apply (proj2 (validation_reports_first_failure (sim compiler_halves) abcd_llm
                    (lit "TURBO") (lit "NONE") [] world_two_examples)).
    + reflexivity.
    + reflexivity.
    + intros Hin. apply list_elem_of_In in Hin. vm_compute in Hin.
      intuition discriminate.
Defined.

Lemma spawn_failure_propagates_witness :
  In (RunRaised (OSError (lit "Permission denied")))
     (omap spawn_answer
        (trace_of (sim compiler_denied) (balanced_run abcd_llm) world_two_examples))
  /\ outcome_of (sim compiler_denied) (balanced_run abcd_llm) world_two_examples
     = Err (OSError (lit "Permission denied"))
  /\ after_spawn (trace_of (sim compiler_denied) (balanced_run abcd_llm) world_two_examples)
     = [].
Proof.
  split; [vm_compute; left; reflexivity|].
  unfold balanced_run.
  apply (spawn_failure_propagates (sim compiler_denied) the_benchmark abcd_llm
           (lit "LOCAL_ONLY") (lit "BALANCED") (lit "software") world_two_examples
           (OSError (lit "Permission denied"))).
  - vm_compute. left. reflexivity.
  - discriminate.
Defined.

Lemma outcome_echoes_configuration_witness :
  let d := failure_outcome (lit "Timeout") (f_of_Z 30) (lit "LOCAL_ONLY") (lit "BALANCED")
             (lit "software") in
  let t := trace_of (sim compiler_hangs) (balanced_run abcd_llm) world_two_examples in
  outcome_of (sim compiler_hangs) (balanced_run abcd_llm) world_two_examples = Ok d
  /\ d !! "mode" = Some (VStr (lit "LOCAL_ONLY"))
  /\ d !! "goal" = Some (VStr (lit "BALANCED"))
  /\ d !! "domain" = Some (VStr (lit "software"))
  /\ reportable d = true
  /\ outcome_wf d = true
  /\ (d !! "error" = None
      <-> exists returncode stdout stderr,
            In (Completed returncode stdout stderr) (omap spawn_answer t)).
Proof.
  cbv zeta. split; [reflexivity|]. unfold balanced_run.
  apply (outcome_echoes_configuration (sim compiler_hangs) the_benchmark abcd_llm
           (lit "LOCAL_ONLY") (lit "BALANCED") (lit "software") world_two_examples
           (failure_outcome (lit "Timeout") (f_of_Z 30) (lit "LOCAL_ONLY") (lit "BALANCED")
              (lit "software"))).
  reflexivity.
Defined.

Lemma completed_execution_time_witness :
  let t := trace_of (sim compiler_halves) (balanced_run abcd_llm) world_two_examples in
  In (Completed 0 (lit "done") []) (omap spawn_answer t)
  /\ exists t0 t1,
       omap clock_reading t = [t0; t1]
       /\ forall d,
            outcome_of (sim compiler_halves) (balanced_run abcd_llm) world_two_examples = Ok d ->
            d !! "execution_time" = Some (VNum (PFloat (f_sub t1 t0))).
Proof.
  cbv zeta. split; [vm_compute; left; reflexivity|].
  unfold balanced_run.
  apply (completed_execution_time (sim compiler_halves) the_benchmark abcd_llm
           (lit "LOCAL_ONLY") (lit "BALANCED") (lit "software") world_two_examples
           0 (lit "done") []).
  vm_compute. left. reflexivity.
Defined.

Lemma report_never_fails_witness :
  Forall (fun res : @file_result Q =>
            Forall (fun d => reportable d = true) (optimizations res)) sample_results
  /\ exists report,
       run (sim compiler_halves) (generate_report sample_results) world_two_examples
       = (Ok report,
          snd (answer (sim compiler_halves) (Strftime (lit "%Y-%m-%d %H:%M:%S"))
                      world_two_examples),
          [Made (Strftime (lit "%Y-%m-%d %H:%M:%S"))
                (fst (answer (sim compiler_halves) (Strftime (lit "%Y-%m-%d %H:%M:%S"))
                             world_two_examples))]).
Proof.
  assert (Hres : Forall (fun res : @file_result Q =>
                           Forall (fun d => reportable d = true) (optimizations res))
                        sample_results).
  { apply List.Forall_cons; [|apply List.Forall_nil]. cbn [optimizations].
    apply List.Forall_cons; [reflexivity|]. apply List.Forall_cons; [reflexivity|]. apply List.Forall_nil. }
  split; [exact Hres|].
  exact (report_never_fails (sim compiler_halves) sample_results world_two_examples Hres).
Defined.

Lemma exit_zero_without_output_row_witness :
  let t := trace_of (sim compiler_idle) (balanced_run abcd_llm) world_two_examples in
  In (Completed 0 [] []) (omap spawn_answer t)
  /\ ~ In true (omap (exists_answer (output_file_of the_benchmark abcd_llm)) (after_spawn t))
  /\ exists d t0 t1,
       outcome_of (sim compiler_idle) (balanced_run abcd_llm) world_two_examples = Ok d
       /\ omap clock_reading t = [t0; t1]
       /\ detail_row {| fs_size := 4; fs_lines := 1; fs_chars := 4 |} d
          = Ok (lit "| " ++ lit "LOCAL_ONLY" ++ lit " | " ++ lit "BALANCED" ++ lit " | "
                ++ lit "software" ++ lit " | " ++ [9989] ++ lit " | "
                ++ f_format 3 (f_sub t1 t0) ++ lit " | " ++ lit "N/A" ++ lit " | "
                ++ lit "FAILED" ++ lit " |").
Proof.
  cbv zeta. split; [vm_compute; left; reflexivity|].
  split; [vm_compute; intuition discriminate|].
  unfold balanced_run.
  apply (exit_zero_without_output_row (sim compiler_idle) the_benchmark abcd_llm
           (lit "LOCAL_ONLY") (lit "BALANCED") (lit "software") world_two_examples
           {| fs_size := 4; fs_lines := 1; fs_chars := 4 |} [] []).
  - vm_compute. left. reflexivity.
  - vm_compute. intuition discriminate.
Defined.

Lemma success_count_bounded_witness :
  exists results,
    outcome_of (sim compiler_fails) (for_collect [abcd_llm] (benchmark_file the_benchmark))
               world_two_examples = Ok results
    /\ exists sm,
         summarize results = Ok sm
         /\ total_files sm = Z.of_nat (length [abcd_llm])
         /\ (0 <= successes sm <= 4 * total_files sm)%Z.
Proof.
  destruct (outcome_of (sim compiler_fails)
              (for_collect [abcd_llm] (benchmark_file the_benchmark)) world_two_examples)
    as [results|e] eqn:Hrun.
  - exists results. split; [reflexivity|].
    exact (success_count_bounded (sim compiler_fails) the_benchmark [abcd_llm]
             world_two_examples results Hrun).
  - exfalso. vm_compute in Hrun. discriminate.
Defined.

Lemma print_summary_prints_section_witness :
  outcome_of (sim compiler_halves) (print_summary false sample_report_lines)
             world_two_examples = Ok tt
  /\ trace_of (sim compiler_halves) (print_summary false sample_report_lines)
              world_two_examples
     = [ Made (Print (lit "- **Files processed**: 1")) tt;
         Made (Print (lit "- **Success rate**: 100.0%")) tt ].
Proof.
  apply (print_summary_prints_section (sim compiler_halves)
           [lit "# Meta-Prompt Compiler Benchmark Report"; []]
           [[]; lit "- **Files processed**: 1"; lit "   ";
            lit "## Executive Summary (continued)"; lit "- **Success rate**: 100.0%"]
           [lit "## Detailed Results"; lit "### abcd.llm"]
           (lit "## Executive Summary") world_two_examples).
  - apply List.Forall_cons; [reflexivity|]. apply List.Forall_cons; [reflexivity|].
    apply List.Forall_nil.
  - reflexivity.
  - repeat (apply List.Forall_cons; [intros Hc; first [discriminate Hc | reflexivity]|]).
    apply List.Forall_nil.
  - split; reflexivity.
Defined.
